(** * Job-result normalisation of the Xiaomi jobs demos

    A shallow embedding of the result-formatting code that the adapters of
    the repository share:

    - [print_job_results]   (sample-query.py), the console printer;
    - [format_job_results]  (xiaomi_jobs_mcp.py), the tool-protocol formatter;
    - [search_jobs_internal] (fastapi_wrapper.py), the REST facade, from the
      point where the remote call has returned;
    - [_extract_locations]  (google_a2a_sample.py), the location helper.

    The raw response is the Python object that [response.json()] yields, so
    the embedding starts with the fragment of the Python object model that
    these functions exercise. *)

From Stdlib Require Import List ZArith NArith String Ascii Bool Lia.
From Stdlib Require Import SpecFloat.
From Stdlib Require DecimalString.
Import ListNotations.

Set Implicit Arguments.
Set Warnings "-register-all".
Open Scope list_scope.

(** ** Python strings: sequences of Unicode code points *)

Module PyStr.

Definition char := N.
Definition str := list char.

Definition nl : char := 10%N.
Definition cr : char := 13%N.
Definition space : char := 32%N.

(** Source literals are written as UTF-8 text; [lit] decodes them into code
    points, so that a literal of the model reads like the literal of the
    source. *)
Fixpoint utf8_decode (bs : list N) : str :=
  match bs with
  | [] => []
  | b0 :: r0 =>
    if (b0 <? 128)%N then b0 :: utf8_decode r0
    else if (b0 <? 224)%N then
      match r0 with
      | b1 :: r1 => ((b0 - 192) * 64 + (b1 - 128))%N :: utf8_decode r1
      | _ => []
      end
    else if (b0 <? 240)%N then
      match r0 with
      | b1 :: b2 :: r2 =>
        ((b0 - 224) * 4096 + (b1 - 128) * 64 + (b2 - 128))%N :: utf8_decode r2
      | _ => []
      end
    else
      match r0 with
      | b1 :: b2 :: b3 :: r3 =>
        ((b0 - 240) * 262144 + (b1 - 128) * 4096 + (b2 - 128) * 64 + (b3 - 128))%N
          :: utf8_decode r3
      | _ => []
      end
  end.

Definition lit (s : string) : str :=
  utf8_decode (map N_of_ascii (list_ascii_of_string s)).
Arguments lit s%_string.

Definition char_eqb (a b : char) : bool := (a =? b)%N.

Fixpoint str_eqb (a b : str) : bool :=
  match a, b with
  | [], [] => true
  | x :: a', y :: b' => char_eqb x y && str_eqb a' b'
  | _, _ => false
  end.

(** [s.replace(old, new)] for one-character [old] and [new]. *)
Definition replace_char (old new : char) (s : str) : str :=
  map (fun c => if char_eqb c old then new else c) s.

(** [str.isspace] on one code point (CPython's [_PyUnicode_IsWhitespace]). *)
Definition is_space (c : char) : bool :=
  ((9 <=? c) && (c <=? 13) || (28 <=? c) && (c <=? 32)
   || (c =? 133) || (c =? 160) || (c =? 5760)
   || (8192 <=? c) && (c <=? 8202)
   || (c =? 8232) || (c =? 8233) || (c =? 8239) || (c =? 8287)
   || (c =? 12288))%N.

Fixpoint lstrip (s : str) : str :=
  match s with
  | c :: s' => if is_space c then lstrip s' else s
  | [] => []
  end.

Definition rstrip (s : str) : str := rev (lstrip (rev s)).

(** [s.strip()] *)
Definition strip (s : str) : str := rstrip (lstrip s).

Fixpoint starts_with (p s : str) : bool :=
  match p, s with
  | [], _ => true
  | x :: p', y :: s' => char_eqb x y && starts_with p' s'
  | _ :: _, [] => false
  end.

(** [p in s] on two strings: substring search. *)
Fixpoint is_substring (p s : str) : bool :=
  starts_with p s ||
  match s with
  | [] => false
  | _ :: s' => is_substring p s'
  end.

(** [c * n] for a one-character string [c]. *)
Definition repeat_char (c : char) (n : nat) : str := repeat c n.

(** [sep.join(parts)] on strings. *)
Fixpoint join (sep : str) (parts : list str) : str :=
  match parts with
  | [] => []
  | [p] => p
  | p :: rest => p ++ sep ++ join sep rest
  end.

(** [str(n)] for an integer. *)
Definition of_Z (z : Z) : str :=
  lit (DecimalString.NilZero.string_of_int (Z.to_int z)).

End PyStr.
Export PyStr.

(** ** Python values as [json.loads] builds them *)

Inductive value : Type :=
| VNone
| VBool (b : bool)
| VInt (z : Z)
| VFloat (f : spec_float)
| VStr (s : str)
| VList (l : list value)
| VDict (d : list (str * value)).

(** A [dict] keeps insertion order; lookup finds the binding of a key.
    The keys of a Python dict are distinct, and so are those of the
    association lists that stand for one. *)
Definition dict := list (str * value).

Inductive exn := TypeError | AttributeError | KeyError.

Inductive result (A : Type) : Type :=
| Ok (a : A)
| Raise (e : exn).
Arguments Raise {A} e.

Definition rbind {A B} (m : result A) (k : A -> result B) : result B :=
  match m with
  | Ok a => k a
  | Raise e => Raise e
  end.

Declare Scope py_scope.
Delimit Scope py_scope with py.
Notation "x <- m ;; k" := (rbind m (fun x => k))
  (at level 61, m at next level, right associativity) : py_scope.
Open Scope py_scope.

Fixpoint mapM {A B} (f : A -> result B) (l : list A) : result (list B) :=
  match l with
  | [] => Ok []
  | a :: l' => b <- f a ;; bs <- mapM f l' ;; Ok (b :: bs)
  end.

Module Py.

Fixpoint lookup (k : str) (d : dict) : option value :=
  match d with
  | [] => None
  | (k', v) :: d' => if str_eqb k' k then Some v else lookup k d'
  end.

(** [k in d] *)
Definition has_key (d : dict) (k : str) : bool :=
  match lookup k d with Some _ => true | None => false end.

(** [d.get(k, default)] *)
Definition get_or (d : dict) (k : str) (default : value) : value :=
  match lookup k d with Some v => v | None => default end.

(** [d.get(k)] *)
Definition get (d : dict) (k : str) : value := get_or d k VNone.

Definition is_zero (f : spec_float) : bool :=
  match f with S754_zero _ => true | _ => false end.

(** Truth value of an object in a condition. *)
Definition truthy (v : value) : bool :=
  match v with
  | VNone => false
  | VBool b => b
  | VInt z => negb (z =? 0)%Z
  | VFloat f => negb (is_zero f)
  | VStr s => match s with [] => false | _ => true end
  | VList l => match l with [] => false | _ => true end
  | VDict d => match d with [] => false | _ => true end
  end.

(** [v != 0]: numbers compare by value ([False == 0] and [0.0 == 0]);
    every other object differs from [0]. *)
Definition ne_zero (v : value) : bool :=
  match v with
  | VBool b => b
  | VInt z => negb (z =? 0)%Z
  | VFloat f => negb (is_zero f)
  | _ => true
  end.

(** [v == s] for a string [s]. *)
Definition eq_str (v : value) (s : str) : bool :=
  match v with VStr s' => str_eqb s' s | _ => false end.

(** [k in c] for a string [k]. *)
Definition contains (k : str) (c : value) : result bool :=
  match c with
  | VDict d => Ok (has_key d k)
  | VList l => Ok (existsb (fun v => eq_str v k) l)
  | VStr s => Ok (is_substring k s)
  | _ => Raise TypeError
  end.

(** [c[k]] for a string [k]. *)
Definition getitem (c : value) (k : str) : result value :=
  match c with
  | VDict d => match lookup k d with Some v => Ok v | None => Raise KeyError end
  | _ => Raise TypeError
  end.

(** [c.get(k, default)] on an arbitrary object: only a [dict] has [get]. *)
Definition vget_or (c : value) (k : str) (default : value) : result value :=
  match c with
  | VDict d => Ok (get_or d k default)
  | _ => Raise AttributeError
  end.

(** [len(c)] *)
Definition len (c : value) : result nat :=
  match c with
  | VList l => Ok (List.length l)
  | VStr s => Ok (List.length s)
  | VDict d => Ok (List.length d)
  | _ => Raise TypeError
  end.

(** The items a [for] loop over [c] visits. *)
Definition iter (c : value) : result (list value) :=
  match c with
  | VList l => Ok l
  | VStr s => Ok (map (fun ch => VStr [ch]) s)
  | VDict d => Ok (map (fun kv => VStr (fst kv)) d)
  | _ => Raise TypeError
  end.

(** [sep.join(items)]: every item has to be a string. *)
Definition join_values (sep : str) (items : list value) : result str :=
  parts <- mapM (fun v => match v with VStr s => Ok s | _ => Raise TypeError end) items ;;
  Ok (join sep parts).

End Py.

(** ** Console output: what [print] wrote, and how the call ended *)

Definition io (A : Type) : Type := (list str * result A)%type.

Definition print (line : str) : io unit := ([line], Ok tt).
Definition io_ret {A} (a : A) : io A := ([], Ok a).
Definition io_lift {A} (r : result A) : io A := ([], r).

Definition io_bind {A B} (m : io A) (k : A -> io B) : io B :=
  match m with
  | (out, Ok a) => let (out', r) := k a in (out ++ out', r)
  | (out, Raise e) => (out, Raise e)
  end.

Notation "x <+ m ;; k" := (io_bind m (fun x => k))
  (at level 61, m at next level, right associativity) : py_scope.
Notation "m ;;; k" := (io_bind m (fun _ => k))
  (at level 61, right associativity) : py_scope.

(** ** The formatting code *)

Section Normalizers.

(** [str()] of a float, a list or a dict is Python's [repr] of it (shortest
    round-trip float digits, quoting and escaping of nested strings).  The
    repository does not define it; the embedding takes it as given. *)
Variable py_repr : value -> str.

(** [str(v)], which is also what an f-string field [{v}] inserts. *)
Definition py_str (v : value) : str :=
  match v with
  | VStr s => s
  | VNone => lit "None"
  | VBool true => lit "True"
  | VBool false => lit "False"
  | VInt z => of_Z z
  | VFloat _ | VList _ | VDict _ => py_repr v
  end.

(** *** Locations (google_a2a_sample.py, [_extract_locations]) *)

(** The body shared by the [city_info] branch and the [city_list] loop:
    [city.get('name', str(city))] on a dict, [str(city)] otherwise. *)
Definition location_of (city : value) : value :=
  match city with
  | VDict c => Py.get_or c (lit "name") (VStr (py_str city))
  | _ => VStr (py_str city)
  end.

(** The same block is written out inside [print_job_results],
    [format_job_results] and [search_jobs_internal]; they use this
    definition for it. *)
Definition _extract_locations (job : value) : result (list value) :=
  city_info <- Py.vget_or job (lit "city_info") VNone ;;
  if Py.truthy city_info then
    city_info <- Py.getitem job (lit "city_info") ;;
    Ok [location_of city_info]
  else
    city_list <- Py.vget_or job (lit "city_list") VNone ;;
    if Py.truthy city_list then
      city_list <- Py.getitem job (lit "city_list") ;;
      cities <- Py.iter city_list ;;
      Ok (map location_of cities)
    else Ok [].

(** [", ".join(locations) if locations else "N/A"] *)
Definition location_str (locations : list value) : result str :=
  match locations with
  | [] => Ok (lit "N/A")
  | _ => Py.join_values (lit ", ") locations
  end.

(** *** Detail URL *)

Definition detail_url (job_id : value) : str :=
  lit "https://xiaomi.jobs.f.mioffice.cn/index/position/" ++ py_str job_id
    ++ lit "/detail".

(** *** Text previews *)

(** [text.replace('\n', ' ').replace('\r', ' ').strip()] *)
Definition clean_text (text : str) : str :=
  strip (replace_char cr space (replace_char nl space text)).

(** [clean[:boundary] + "..." if len(clean) > boundary else clean] *)
Definition truncate (boundary : nat) (clean : str) : str :=
  if boundary <? List.length clean then firstn boundary clean ++ lit "..."
  else clean.

Definition preview (boundary : nat) (text : str) : str :=
  truncate boundary (clean_text text).

(** The preview of a field value: only a string has [replace]. *)
Definition preview_value (boundary : nat) (text : value) : result str :=
  match text with
  | VStr s => Ok (preview boundary s)
  | _ => Raise AttributeError
  end.

(** *** sample-query.py, [print_job_results] *)

(** One round of the loop over [enumerate(job_posts, 1)]. *)
Definition print_job (i : nat) (job : value) : io unit :=
  title <+ io_lift (Py.vget_or job (lit "title") (VStr (lit "N/A"))) ;;
  print (py_str (VInt (Z.of_nat i)) ++ lit ". " ++ py_str title) ;;;
  code <+ io_lift (Py.vget_or job (lit "code") (VStr (lit "N/A"))) ;;
  print (lit "   🆔 Job Code: " ++ py_str code) ;;;
  locations <+ io_lift (_extract_locations job) ;;
  loc <+ io_lift (location_str locations) ;;
  print (lit "   📍 Location: " ++ loc) ;;;
  recruit_type <+ io_lift (Py.vget_or job (lit "recruit_type") (VStr (lit "N/A"))) ;;
  print (lit "   💼 Type: " ++ py_str recruit_type) ;;;
  job_id <+ io_lift (Py.vget_or job (lit "id") (VStr [])) ;;
  print (lit "   🔗 URL: " ++ detail_url job_id) ;;;
  description <+ io_lift (Py.vget_or job (lit "description") (VStr [])) ;;
  (if Py.truthy description then
     desc_preview <+ io_lift (preview_value 150 description) ;;
     print (lit "   📝 Description: " ++ desc_preview)
   else io_ret tt) ;;;
  requirement <+ io_lift (Py.vget_or job (lit "requirement") (VStr [])) ;;
  (if Py.truthy requirement then
     req_preview <+ io_lift (preview_value 100 requirement) ;;
     print (lit "   📋 Requirements: " ++ req_preview)
   else io_ret tt) ;;;
  print [].

Fixpoint print_jobs (i : nat) (job_posts : list value) : io unit :=
  match job_posts with
  | [] => io_ret tt
  | job :: rest => print_job i job ;;; print_jobs (S i) rest
  end.

Definition found_line (total_count : value) (shown : nat) : str :=
  lit "📋 Found " ++ py_str total_count ++ lit " job(s), showing "
    ++ py_str (VInt (Z.of_nat shown)) ++ lit " results".

Definition print_job_results (data : dict) : io unit :=
  if Py.truthy (Py.get data (lit "error")) then
    err <+ io_lift (Py.getitem (VDict data) (lit "error")) ;;
    print (lit "❌ Error: " ++ py_str err)
  else if Py.ne_zero (Py.get data (lit "code")) then
    print (lit "❌ API Error: "
             ++ py_str (Py.get_or data (lit "message") (VStr (lit "Unknown error"))))
  else if negb (Py.has_key data (lit "data")) then
    print (lit "❌ No 'data' key found in response")
  else
    data_section <+ io_lift (Py.getitem (VDict data) (lit "data")) ;;
    has_list <+ io_lift (Py.contains (lit "job_post_list") data_section) ;;
    if negb has_list then
      print (lit "❌ No 'job_post_list' key found in data section")
    else
      job_posts <+ io_lift (Py.getitem data_section (lit "job_post_list")) ;;
      shown <+ io_lift (Py.len job_posts) ;;
      total_count <+ io_lift (Py.vget_or data_section (lit "count")
                                          (VInt (Z.of_nat shown))) ;;
      print (found_line total_count shown) ;;;
      if Nat.eqb shown 0 then
        print (lit "📭 No job postings found")
      else
        print (repeat_char 61%N 80) ;;;
        jobs <+ io_lift (Py.iter job_posts) ;;
        print_jobs 1 jobs.

(** *** xiaomi_jobs_mcp.py, [format_job_results] *)

(** One round of the loop: the list [job_info] as the round builds it. *)
Definition job_info (i : nat) (job : value) : result (list str) :=
  title <- Py.vget_or job (lit "title") (VStr (lit "N/A")) ;;
  let job_info := [py_str (VInt (Z.of_nat i)) ++ lit ". " ++ py_str title] in
  code <- Py.vget_or job (lit "code") (VStr (lit "N/A")) ;;
  let job_info := job_info ++ [lit "   🆔 Job Code: " ++ py_str code] in
  locations <- _extract_locations job ;;
  loc <- location_str locations ;;
  let job_info := job_info ++ [lit "   📍 Location: " ++ loc] in
  recruit_type <- Py.vget_or job (lit "recruit_type") (VStr (lit "N/A")) ;;
  let job_info := job_info ++ [lit "   💼 Type: " ++ py_str recruit_type] in
  job_id <- Py.vget_or job (lit "id") (VStr []) ;;
  let job_info := job_info ++ [lit "   🔗 URL: " ++ detail_url job_id] in
  description <- Py.vget_or job (lit "description") VNone ;;
  job_info <-
    (if Py.truthy description then
       description <- Py.getitem job (lit "description") ;;
       desc_preview <- preview_value 150 description ;;
       Ok (job_info ++ [lit "   📝 Description: " ++ desc_preview])
     else Ok job_info) ;;
  requirement <- Py.vget_or job (lit "requirement") VNone ;;
  job_info <-
    (if Py.truthy requirement then
       requirement <- Py.getitem job (lit "requirement") ;;
       req_preview <- preview_value 100 requirement ;;
       Ok (job_info ++ [lit "   📋 Requirements: " ++ req_preview])
     else Ok job_info) ;;
  Ok job_info.

(** [result.append("\n".join(job_info))] adds this entry. *)
Definition format_job (i : nat) (job : value) : result str :=
  lines <- job_info i job ;;
  Ok (join [nl] lines).

Fixpoint format_jobs (i : nat) (job_posts : list value) : result (list str) :=
  match job_posts with
  | [] => Ok []
  | job :: rest =>
    entry <- format_job i job ;;
    entries <- format_jobs (S i) rest ;;
    Ok (entry :: entries)
  end.

Definition found_header (total_count : value) (shown : nat) : str :=
  found_line total_count shown ++ [nl] ++ repeat_char 61%N 80.

Definition format_job_results (data : dict) : result str :=
  if Py.truthy (Py.get data (lit "error")) then
    err <- Py.getitem (VDict data) (lit "error") ;;
    Ok (lit "❌ Error: " ++ py_str err)
  else if Py.ne_zero (Py.get data (lit "code")) then
    Ok (lit "❌ API Error: "
          ++ py_str (Py.get_or data (lit "message") (VStr (lit "Unknown error"))))
  else
    no_data <-
      (if negb (Py.has_key data (lit "data")) then Ok true
       else
         data_section <- Py.getitem (VDict data) (lit "data") ;;
         has_list <- Py.contains (lit "job_post_list") data_section ;;
         Ok (negb has_list)) ;;
    if (no_data : bool) then Ok (lit "❌ No job data found in response")
    else
      data_section <- Py.getitem (VDict data) (lit "data") ;;
      job_posts <- Py.getitem data_section (lit "job_post_list") ;;
      shown <- Py.len job_posts ;;
      total_count <- Py.vget_or data_section (lit "count") (VInt (Z.of_nat shown)) ;;
      if Nat.eqb shown 0 then
        Ok (lit "📭 No job postings found (Total: " ++ py_str total_count ++ lit ")")
      else
        jobs <- Py.iter job_posts ;;
        entries <- format_jobs 1 jobs ;;
        Ok (join [nl; nl] (found_header total_count shown :: entries)).

(** *** fastapi_wrapper.py, [search_jobs_internal]

    [results] is what [jobs_api.search_jobs] returned.  Inside the [try]
    the function builds the [JobSearchResponse] model, and pydantic checks
    the keyword arguments against the declared field types as it does so:
    [total_count: int] and [message: Optional[str]] ([success] is always
    given a bool, and [jobs] a list of dicts with string keys, which
    pass).  A refusal raises inside the [try], like any other exception. *)

(** pydantic is not part of the repository.  What every version of it
    takes as it is, and what every version refuses, is written out in
    [int_field] and [optional_str_field]; whether and how it converts a
    value of another scalar type (a string, a float or a bool given for
    [int]; a number or a bool given for [str]) depends on its version and
    mode, and is left to these two parameters. *)
Variable coerce_int : value -> option Z.
Variable coerce_str : value -> option str.

(** A value given for a field declared [int]. *)
Definition int_field (v : value) : option Z :=
  match v with
  | VInt n => Some n
  | VNone | VList _ | VDict _ => None
  | VBool _ | VFloat _ | VStr _ => coerce_int v
  end.

(** A value given for a field declared [Optional[str]]. *)
Definition optional_str_field (v : value) : option (option str) :=
  match v with
  | VNone => Some None
  | VStr s => Some (Some s)
  | VList _ | VDict _ => None
  | VBool _ | VInt _ | VFloat _ => option_map Some (coerce_str v)
  end.

(** The model, once built. *)
Record JobSearchResponse : Type := MkJobSearchResponse {
  success : bool;
  total_count : Z;
  jobs : list value;
  message : option str
}.

(** The keyword arguments of a call [JobSearchResponse(...)], with
    [message=None] where the call leaves it out. *)
Record keyword_arguments : Type := KeywordArguments {
  given_success : bool;
  given_total_count : value;
  given_jobs : list value;
  given_message : value
}.

(** [JobSearchResponse(...)]: [None] where pydantic raises its
    [ValidationError]. *)
Definition validated (given : keyword_arguments) : option JobSearchResponse :=
  match int_field (given_total_count given),
        optional_str_field (given_message given) with
  | Some n, Some m =>
    Some (MkJobSearchResponse (given_success given) n (given_jobs given) m)
  | _, _ => None
  end.

(** Every exception inside the [try] becomes [HTTPException(500, ...)]. *)
Inductive http_result : Type :=
| Returns (response : JobSearchResponse)
| HTTPException (status_code : Z).

(** [text[:200] + "..." if text else ""] *)
Definition excerpt (text : value) : result value :=
  if Py.truthy text then
    match text with
    | VStr s => Ok (VStr (firstn 200 s ++ lit "..."))
    | _ => Raise TypeError
    end
  else Ok (VStr []).

Definition formatted_job (job : value) : result value :=
  job_id <- Py.vget_or job (lit "id") VNone ;;
  title <- Py.vget_or job (lit "title") VNone ;;
  code <- Py.vget_or job (lit "code") VNone ;;
  description <- Py.vget_or job (lit "description") (VStr []) ;;
  description <- excerpt description ;;
  requirement <- Py.vget_or job (lit "requirement") (VStr []) ;;
  requirements <- excerpt requirement ;;
  recruit_type <- Py.vget_or job (lit "recruit_type") VNone ;;
  url_id <- Py.vget_or job (lit "id") (VStr []) ;;
  locations <- _extract_locations job ;;
  Ok (VDict [(lit "id", job_id); (lit "title", title); (lit "code", code);
             (lit "description", description);
             (lit "requirements", requirements);
             (lit "recruit_type", recruit_type);
             (lit "url", VStr (detail_url url_id));
             (lit "locations", VList locations)]).

(** The body of the [try] up to the call of the model: the arguments the
    call is made with, or the exception raised before it. *)
Definition search_jobs_try (results : dict) : result keyword_arguments :=
  if Py.truthy (Py.get results (lit "error")) then
    err <- Py.getitem (VDict results) (lit "error") ;;
    Ok (KeywordArguments false (VInt 0) [] err)
  else if Py.ne_zero (Py.get results (lit "code")) then
    Ok (KeywordArguments false (VInt 0) []
          (Py.get_or results (lit "message") (VStr (lit "API error"))))
  else
    let data := Py.get_or results (lit "data") (VDict []) in
    job_posts <- Py.vget_or data (lit "job_post_list") (VList []) ;;
    shown <- Py.len job_posts ;;
    total_count <- Py.vget_or data (lit "count") (VInt (Z.of_nat shown)) ;;
    items <- Py.iter job_posts ;;
    formatted_jobs <- mapM formatted_job items ;;
    Ok (KeywordArguments true total_count formatted_jobs VNone).

Definition search_jobs_internal (results : dict) : http_result :=
  match search_jobs_try results with
  | Ok given =>
    match validated given with
    | Some response => Returns response
    | None => HTTPException 500
    end
  | Raise _ => HTTPException 500
  end.

End Normalizers.

(** ** Notions the properties are stated with *)

(** Every failure report of the printer and of the formatter opens with the
    cross mark; the two success reports open with other signs. *)
Definition is_failure_report (report : str) : bool :=
  starts_with (lit "❌") report.

(** The error marker of a response, as the three functions test it. *)
Definition no_error_marker (data : dict) : Prop :=
  Py.truthy (Py.get data (lit "error")) = false.

(** [code] present and equal to [0]. *)
Definition code_is_zero (data : dict) : Prop :=
  exists c, Py.lookup (lit "code") data = Some c /\ Py.ne_zero c = false.

(** The total the specification asks for: [data.count] if that key is
    present, else the number of records shown. *)
Definition reported_total (data_section : dict) (shown : nat) : value :=
  match Py.lookup (lit "count") data_section with
  | Some c => c
  | None => VInt (Z.of_nat shown)
  end.

(** The four failure reports. *)
Definition api_error_line (msg : str) : str := lit "❌ API Error: " ++ msg.
Definition no_data_line : str := lit "❌ No 'data' key found in response".
Definition no_list_line : str := lit "❌ No 'job_post_list' key found in data section".
Definition no_job_data : str := lit "❌ No job data found in response".

(** The report of an empty result list. *)
Definition none_found_line : str := lit "📭 No job postings found".

(** An instance of [py_repr] to run the functions with, on inputs where
    [str()] is applied to no float, list or dict. *)
Definition repr_any : value -> str := fun _ => lit "<object>".

(** Sample responses. *)
Definition resp_empty : dict := [].
Definition resp_code0 : dict := [(lit "code", VInt 0)].
Definition resp_code0_empty_data : dict :=
  [(lit "code", VInt 0); (lit "data", VDict [])].
Definition resp_empty_data : dict := [(lit "data", VDict [])].
Definition resp_code1 : dict := [(lit "code", VInt 1)].
Definition resp_code1_msg : dict :=
  [(lit "code", VInt 1); (lit "message", VStr (lit "quota exceeded"))].

(** Sample job records. *)
Definition job_beijing : dict :=
  [(lit "city_info", VDict [(lit "name", VStr (lit "Beijing"))])].
Definition job_two_cities : dict :=
  [(lit "city_list", VList [VDict [(lit "name", VStr (lit "A"))];
                            VDict [(lit "name", VStr (lit "B"))]])].
Definition job_no_city : dict := [(lit "title", VStr (lit "Engineer"))].
Definition job_null_city_info : dict :=
  [(lit "city_info", VNone);
   (lit "city_list", VList [VDict [(lit "name", VStr (lit "A"))]])].
Definition job_12345 : dict := [(lit "id", VStr (lit "12345"))].
Definition job_described : dict :=
  [(lit "id", VStr (lit "9")); (lit "title", VStr (lit "Engineer"));
   (lit "city_info", VDict [(lit "name", VStr (lit "Shenzhen"))]);
   (lit "description", VStr (repeat 65%N 200))].
Definition resp_one_job : dict :=
  [(lit "code", VInt 0);
   (lit "data", VDict [(lit "count", VInt 1);
                       (lit "job_post_list", VList [VDict job_described])])].
Definition resp_no_jobs : dict :=
  [(lit "code", VInt 0);
   (lit "data", VDict [(lit "job_post_list", VList [])])].
Definition resp_no_code : dict :=
  [(lit "data", VDict [(lit "job_post_list", VList [VDict job_described])])].
Definition resp_counted : dict :=
  [(lit "code", VInt 0);
   (lit "data", VDict [(lit "count", VInt 42);
                       (lit "job_post_list", VList [VDict job_described])])].
Definition resp_null_count : dict :=
  [(lit "code", VInt 0);
   (lit "data", VDict [(lit "count", VNone); (lit "job_post_list", VList [])])].
Definition resp_list_message : dict :=
  [(lit "message", VList [VStr (lit "busy")])].

(** Instances of the two parameters of the facade: a pydantic that
    converts nothing. *)
Definition strict_int : value -> option Z := fun _ => None.
Definition strict_str : value -> option str := fun _ => None.

(** Location extraction as the specification words it, by the presence of
    the keys: [city_info] if present, else [city_list] if present, else
    nothing.  Where those words say nothing ([city_list] present and not a
    sequence) the result is [None]. *)
Definition spec_single_location (py_repr : value -> str) (city : value) : value :=
  match city with
  | VDict c =>
    match Py.lookup (lit "name") c with
    | Some name => name
    | None => VStr (py_str py_repr city)
    end
  | _ => VStr (py_str py_repr city)
  end.

Definition spec_locations (py_repr : value -> str) (job : dict)
  : option (list value) :=
  match Py.lookup (lit "city_info") job with
  | Some city_info => Some [spec_single_location py_repr city_info]
  | None =>
    match Py.lookup (lit "city_list") job with
    | Some (VList cities) => Some (map (spec_single_location py_repr) cities)
    | Some _ => None
    | None => Some []
    end
  end.

(** ** Further code of the adapters *)

(** *** Python strings, continued *)

(** The fields of [s] between the characters that satisfy [sep]. *)
Fixpoint split_on (sep : char -> bool) (s : str) : list str :=
  match s with
  | [] => [[]]
  | c :: s' =>
    if sep c then [] :: split_on sep s'
    else
      match split_on sep s' with
      | field :: fields => (c :: field) :: fields
      | [] => [[c]]
      end
  end.

(** [s.split(sep)] for a one-character [sep]. *)
Definition split_char (sep : char) (s : str) : list str :=
  split_on (fun c => char_eqb c sep) s.

(** [s.split()]: the words between runs of whitespace. *)
Definition split_ws (s : str) : list str :=
  filter (fun word => match word with [] => false | _ => true end)
         (split_on is_space s).

(** A computation run when [written] has been printed already. *)
Definition after_printing {A} (written : list str) (m : io A) : io A :=
  (written ++ fst m, snd m).

(** [c[:n]]: a list or a string can be sliced. *)
Definition slice_to (n : nat) (c : value) : result value :=
  match c with
  | VList l => Ok (VList (firstn n l))
  | VStr s => Ok (VStr (firstn n s))
  | _ => Raise TypeError
  end.

(** An exception that leaves a handler: a built-in one, or the
    [Exception(arg)] the handler raises itself. *)
Inductive raised : Type :=
| Builtin (e : exn)
| Exception (arg : value).

(** *** fastapi_wrapper.py, the webhook registry

    [active_webhooks] is the module-level list; the functions below take it
    and give back what it is afterwards.  [now] stands for
    [datetime.now().isoformat()].  Handing the new webhook to the
    background task runner is left out. *)

Record WebhookRequest : Type := MkWebhookRequest {
  req_keyword : str;
  req_webhook_url : str;
  req_check_interval_minutes : Z
}.

(** The dict [register_webhook] builds. *)
Record webhook : Type := MkWebhook {
  wh_id : Z;
  wh_keyword : str;
  wh_webhook_url : str;
  wh_check_interval_minutes : Z;
  wh_created_at : str;
  wh_last_check : option str;
  wh_total_notifications : Z
}.

(** The dict an endpoint of the registry returns. *)
Record webhook_reply : Type := MkWebhookReply {
  reply_success : bool;
  reply_webhook_id : option Z;
  reply_message : str
}.

Definition register_webhook (request : WebhookRequest) (now : str)
           (active_webhooks : list webhook) : webhook_reply * list webhook :=
  let new_webhook :=
    MkWebhook (Z.of_nat (List.length active_webhooks) + 1)
              (req_keyword request) (req_webhook_url request)
              (req_check_interval_minutes request) now None 0 in
  (MkWebhookReply true (Some (wh_id new_webhook))
     (lit "Webhook registered for keyword '" ++ req_keyword request ++ lit "'"),
   active_webhooks ++ [new_webhook]).

(** [GET /webhooks]: the list and its length. *)
Definition list_webhooks (active_webhooks : list webhook) : list webhook * nat :=
  (active_webhooks, List.length active_webhooks).

(** [DELETE /webhooks/{webhook_id}]: [inr 404] is
    [HTTPException(status_code=404)], which leaves the list as it was. *)
Definition delete_webhook (webhook_id : Z) (active_webhooks : list webhook)
  : (webhook_reply * list webhook) + Z :=
  match find (fun w => (wh_id w =? webhook_id)%Z) active_webhooks with
  | None => inr 404%Z
  | Some _ =>
    inl (MkWebhookReply true None
           (lit "Webhook " ++ of_Z webhook_id ++ lit " deleted"),
         filter (fun w => negb (wh_id w =? webhook_id)%Z) active_webhooks)
  end.

(** Registering one request after the other, each at its own time. *)
Fixpoint register_all (requests : list (WebhookRequest * str))
         (active_webhooks : list webhook) : list webhook :=
  match requests with
  | [] => active_webhooks
  | (request, now) :: rest =>
    register_all rest (snd (register_webhook request now active_webhooks))
  end.

(** *** a2a_sample.py, [JobAlertSystem.add_alert] *)




(** *** fastapi_wrapper.py, [search_jobs_get]: the location filter *)

(** [[code.strip() for code in location_codes.split(",")]] if the query
    parameter is given and not empty, else [None]. *)
Definition location_list (location_codes : option str) : option (list str) :=
  match location_codes with
  | Some (c :: codes) => Some (map strip (split_char 44%N (c :: codes)))
  | _ => None
  end.

(** *** google_a2a_sample.py, [_handle_job_search] *)

(** [word in ["for", "about", "in"]] *)
Definition is_marker (word : str) : bool :=
  existsb (str_eqb word) [lit "for"; lit "about"; lit "in"].

(** The loop over [enumerate(words)]: the word after the first marker that
    has a word after it. *)
Fixpoint keyword_after_marker (words : list str) : option str :=
  match words with
  | [] => None
  | word :: rest =>
    if is_marker word then
      match rest with
      | next :: _ => Some next
      | [] => keyword_after_marker rest
      end
    else keyword_after_marker rest
  end.

(** The keyword the handler searches for: [context["keyword"]] if that is
    truthy, else the one found in the instruction, else the falsy value. *)
Definition search_keyword (instruction : str) (context : dict) : value :=
  let keyword := Py.get_or context (lit "keyword") (VStr []) in
  if negb (Py.truthy keyword) then
    match keyword_after_marker (split_ws instruction) with
    | Some word => VStr word
    | None => keyword
    end
  else keyword.

(** [context.get("limit", 10)] *)
Definition search_limit (context : dict) : value :=
  Py.get_or context (lit "limit") (VInt 10).

Section Agents.

Variable py_repr : value -> str.

(** The lists [job_info] builds over the rounds of the formatter's loop,
    the first round numbered [i]. *)
Fixpoint job_infos (i : nat) (job_posts : list value)
  : result (list (list str)) :=
  match job_posts with
  | [] => Ok []
  | job :: rest =>
    lines <- job_info py_repr i job ;;
    more <- job_infos (S i) rest ;;
    Ok (lines :: more)
  end.

(** [jobs_api.search_jobs(keyword=..., limit=...)]: the remote call, which
    catches its own exceptions; what it returns is not up to this code. *)
Variable search_jobs : value -> value -> value.

(** The dict the REST facade builds for [record]: the fields it copies,
    the two excerpts, the detail URL and the locations. *)
Definition facade_job_of (record formatted : value) : Prop :=
  exists job description requirements locations,
    record = VDict job /\
    excerpt (Py.get_or job (lit "description") (VStr [])) = Ok description /\
    excerpt (Py.get_or job (lit "requirement") (VStr [])) = Ok requirements /\
    _extract_locations py_repr record = Ok locations /\
    formatted =
      VDict [(lit "id", Py.get job (lit "id"));
             (lit "title", Py.get job (lit "title"));
             (lit "code", Py.get job (lit "code"));
             (lit "description", description);
             (lit "requirements", requirements);
             (lit "recruit_type", Py.get job (lit "recruit_type"));
             (lit "url",
              VStr (detail_url py_repr (Py.get_or job (lit "id") (VStr []))));
             (lit "locations", VList locations)].

(** [text[:300] + "..." if text else ""] *)
Definition excerpt300 (text : value) : result value :=
  if Py.truthy text then
    match text with
    | VStr s => Ok (VStr (firstn 300 s ++ lit "..."))
    | _ => Raise TypeError
    end
  else Ok (VStr []).

Definition a2a_formatted_job (job : value) : result value :=
  job_id <- Py.vget_or job (lit "id") VNone ;;
  title <- Py.vget_or job (lit "title") VNone ;;
  code <- Py.vget_or job (lit "code") VNone ;;
  description <- Py.vget_or job (lit "description") VNone ;;
  description <- excerpt300 description ;;
  requirement <- Py.vget_or job (lit "requirement") VNone ;;
  requirements <- excerpt300 requirement ;;
  recruit_type <- Py.vget_or job (lit "recruit_type") VNone ;;
  url_id <- Py.vget_or job (lit "id") (VStr []) ;;
  locations <- _extract_locations py_repr job ;;
  Ok (VDict [(lit "id", job_id); (lit "title", title); (lit "code", code);
             (lit "description", description);
             (lit "requirements", requirements);
             (lit "type", recruit_type);
             (lit "url", VStr (detail_url py_repr url_id));
             (lit "locations", VList locations)]).

(** The handler from the point where the remote call has returned
    [results]: the dict it returns, or what it raises.  [now] stands for
    [datetime.now().isoformat()]. *)
Definition job_search_artifact (keyword results : value) (now : str)
  : value + raised :=
  match Py.vget_or results (lit "error") VNone with
  | Raise e => inr (Builtin e)
  | Ok err =>
    if Py.truthy err then
      match Py.getitem results (lit "error") with
      | Ok arg => inr (Exception arg)
      | Raise e => inr (Builtin e)
      end
    else
      match
        (jobs_data <- Py.vget_or results (lit "data") (VDict []) ;;
         job_posts <- Py.vget_or jobs_data (lit "job_post_list") (VList []) ;;
         items <- Py.iter job_posts ;;
         formatted_jobs <- mapM a2a_formatted_job items ;;
         shown <- Py.len job_posts ;;
         total_count <- Py.vget_or jobs_data (lit "count")
                                   (VInt (Z.of_nat shown)) ;;
         Ok (VDict [(lit "type", VStr (lit "job_search_results"));
                    (lit "content",
                     VDict [(lit "query", keyword);
                            (lit "total_count", total_count);
                            (lit "jobs", VList formatted_jobs);
                            (lit "search_timestamp", VStr now)]);
                    (lit "format", VStr (lit "application/json"))]))
      with
      | Ok artifact => inl artifact
      | Raise e => inr (Builtin e)
      end
  end.

Definition _handle_job_search (instruction : str) (context : dict) (now : str)
  : value + raised :=
  let keyword := search_keyword instruction context in
  let limit := search_limit context in
  job_search_artifact keyword (search_jobs keyword limit) now.

(** *** fastapi_wrapper.py, [get_trending_jobs] *)

(** [{"title": job.get("title"), "code": job.get("code")}] *)
Definition sample_job (job : value) : result value :=
  title <- Py.vget_or job (lit "title") VNone ;;
  code <- Py.vget_or job (lit "code") VNone ;;
  Ok (VDict [(lit "title", title); (lit "code", code)]).

(** The body of the [try] for one keyword: the entry it adds to
    [trending_data], if any. *)
Definition trending_entry (results : value) : result (option value) :=
  data <- Py.vget_or results (lit "data") (VDict []) ;;
  count <- Py.vget_or data (lit "count") VNone ;;
  if Py.truthy count then
    data <- Py.getitem results (lit "data") ;;
    count <- Py.getitem data (lit "count") ;;
    data <- Py.getitem results (lit "data") ;;
    job_posts <- Py.getitem data (lit "job_post_list") ;;
    first_three <- slice_to 3 job_posts ;;
    items <- Py.iter first_three ;;
    sample_jobs <- mapM sample_job items ;;
    Ok (Some (VDict [(lit "count", count);
                     (lit "sample_jobs", VList sample_jobs)]))
  else Ok None.

Definition trending_keywords : list str :=
  [lit "AI"; lit "python"; lit "engineer"; lit "developer"; lit "manager"].

(** The loop: [except Exception: continue] skips a keyword whose round
    raised.  The keywords of the source are distinct, so that each key of
    [trending_data] is written once. *)
Fixpoint trending_data (keywords : list str) : list (str * value) :=
  match keywords with
  | [] => []
  | keyword :: rest =>
    match trending_entry (search_jobs (VStr keyword) (VInt 5)) with
    | Ok (Some entry) => (keyword, entry) :: trending_data rest
    | Ok None | Raise _ => trending_data rest
    end
  end.

(** The returned dict, with [now] for [datetime.now().isoformat()]. *)
Definition get_trending_jobs (now : str) : value :=
  VDict [(lit "success", VBool true);
         (lit "trending_keywords", VDict (trending_data trending_keywords));
         (lit "generated_at", VStr now)].

End Agents.

(** Sample inputs for the further code. *)
Definition request_ai : WebhookRequest :=
  MkWebhookRequest (lit "AI") (lit "https://example.com/hook") 60.
Definition job_null_city_name : dict :=
  [(lit "title", VStr (lit "Engineer"));
   (lit "city_info", VDict [(lit "name", VNone)])].
Definition resp_bad_city : dict :=
  [(lit "code", VInt 0);
   (lit "data", VDict [(lit "job_post_list",
                        VList [VDict job_described; VDict job_null_city_name])])].
Definition resp_busy : dict :=
  [(lit "code", VInt 500); (lit "message", VStr (lit "busy"))].
Definition requests_three : list (WebhookRequest * str) :=
  [(request_ai, lit "t1"); (request_ai, lit "t2"); (request_ai, lit "t3")].


(** ** Properties *)

Section Properties.

Variable py_repr : value -> str.
Variable coerce_int : value -> option Z.
Variable coerce_str : value -> option str.

Lemma getitem_truthy (d : dict) (k : str) :
  Py.truthy (Py.get d k) = true ->
  Py.getitem (VDict d) k = Ok (Py.get d k).
Proof.
  unfold Py.get, Py.get_or, Py.getitem.
  destruct (Py.lookup k d); [reflexivity | discriminate].
Qed.

Lemma get_of_lookup (d : dict) (k : str) (v : value) :
  Py.lookup k d = Some v -> Py.get d k = v.
Proof. unfold Py.get, Py.get_or. now intros ->. Qed.

Lemma get_absent (d : dict) (k : str) :
  Py.lookup k d = None -> Py.get d k = VNone.
Proof. unfold Py.get, Py.get_or. now intros ->. Qed.

Lemma get_or_of_lookup (d : dict) (k : str) (v default : value) :
  Py.lookup k d = Some v -> Py.get_or d k default = v.
Proof. unfold Py.get_or. now intros ->. Qed.

Lemma get_or_absent (d : dict) (k : str) (default : value) :
  Py.lookup k d = None -> Py.get_or d k default = default.
Proof. unfold Py.get_or. now intros ->. Qed.

Lemma getitem_of_lookup (d : dict) (k : str) (v : value) :
  Py.lookup k d = Some v -> Py.getitem (VDict d) k = Ok v.
Proof. unfold Py.getitem. now intros ->. Qed.

Lemma has_key_false (d : dict) (k : str) :
  Py.has_key d k = false <-> Py.lookup k d = None.
Proof.
  unfold Py.has_key. destruct (Py.lookup k d); split; congruence.
Qed.

Lemma has_key_of_lookup (d : dict) (k : str) (v : value) :
  Py.lookup k d = Some v -> Py.has_key d k = true.
Proof. unfold Py.has_key. now intros ->. Qed.

Lemma code_is_zero_ne_zero (data : dict) :
  code_is_zero data -> Py.ne_zero (Py.get data (lit "code")) = false.
Proof. intros (c & Hc & Hz). now rewrite (get_of_lookup _ _ Hc). Qed.

Lemma io_bind_print (line : str) (B : Type) (k : unit -> io B) :
  io_bind (print line) k = (line :: fst (k tt), snd (k tt)).
Proof. unfold io_bind, print. now destruct (k tt). Qed.

Lemma io_bind_lift_ok (A B : Type) (a : A) (k : A -> io B) :
  io_bind (io_lift (Ok a)) k = k a.
Proof. unfold io_bind, io_lift. now destruct (k a). Qed.

Lemma io_bind_lift_raise (A B : Type) (e : exn) (k : A -> io B) :
  io_bind (io_lift (Raise e)) k = ([], Raise e).
Proof. reflexivity. Qed.

(** Rewrites the guards of the three functions with what is known. *)
Ltac guards :=
  repeat match goal with
  | H : no_error_marker _ |- _ => red in H
  | H : code_is_zero _ |- _ => apply code_is_zero_ne_zero in H
  | H : Py.truthy (Py.get ?d ?k) = _ |- context [Py.truthy (Py.get ?d ?k)] =>
    rewrite H
  | H : Py.ne_zero (Py.get ?d ?k) = _ |- context [Py.ne_zero (Py.get ?d ?k)] =>
    rewrite H
  | H : Py.has_key ?d ?k = _ |- context [Py.has_key ?d ?k] => rewrite H
  | H : Py.lookup ?k ?d = Some _ |- context [Py.has_key ?d ?k] =>
    rewrite (has_key_of_lookup _ _ H)
  | H : Py.lookup ?k ?d = Some _ |- context [Py.getitem (VDict ?d) ?k] =>
    rewrite (getitem_of_lookup _ _ H)
  | H : Py.lookup ?k ?d = Some _ |- context [Py.get_or ?d ?k _] =>
    rewrite (get_or_of_lookup _ _ _ H)
  | H : Py.lookup ?k ?d = None |- context [Py.get_or ?d ?k _] =>
    rewrite (get_or_absent _ _ _ H)
  end.

(** C8: a response without the [data] key is reported as a failure by the
    printer and by the formatter, and neither raises: the printer writes one
    failure line and returns, the formatter returns one failure report. *)
Theorem C8_missing_data_fails_without_raising (data : dict) :
  Py.has_key data (lit "data") = false ->
  (exists line,
      print_job_results py_repr data = ([line], Ok tt) /\
      is_failure_report line = true) /\
  (exists report,
      format_job_results py_repr data = Ok report /\
      is_failure_report report = true).
Proof.
  intros Hdata.
  unfold print_job_results, format_job_results.
  destruct (Py.truthy (Py.get data (lit "error"))) eqn:Herr.
  - rewrite (getitem_truthy _ _ Herr). split; eexists; split; reflexivity.
  - destruct (Py.ne_zero (Py.get data (lit "code"))) eqn:Hcode.
    + split; eexists; split; reflexivity.
    + rewrite Hdata. split; eexists; split; reflexivity.
Qed.

(** C10 (amended): a response with no error marker and no [code] key takes
    the API-error branch in the printer, the formatter and the REST facade,
    whatever its [data] holds: [data.get("code")] is [None], and
    [None != 0].  The printer and the formatter report the API error.  The
    facade answers [success=False] with no jobs and the message where
    pydantic takes the message for its [Optional[str]] field: "API error"
    when the key is absent, the string when it holds one, no message when
    it holds null; where pydantic refuses the message, as it does a list,
    the facade answers HTTP 500.  It never answers [success=True]. *)
Theorem C10_missing_code_is_api_error (data : dict) :
  no_error_marker data ->
  Py.lookup (lit "code") data = None ->
  print_job_results py_repr data =
    ([api_error_line
        (py_str py_repr (Py.get_or data (lit "message") (VStr (lit "Unknown error"))))],
     Ok tt) /\
  format_job_results py_repr data =
    Ok (api_error_line
          (py_str py_repr (Py.get_or data (lit "message") (VStr (lit "Unknown error"))))) /\
  (Py.lookup (lit "message") data = None ->
   search_jobs_internal py_repr coerce_int coerce_str data =
     Returns (MkJobSearchResponse false 0 [] (Some (lit "API error")))) /\
  (forall m,
     Py.lookup (lit "message") data = Some (VStr m) ->
     search_jobs_internal py_repr coerce_int coerce_str data =
       Returns (MkJobSearchResponse false 0 [] (Some m))) /\
  (Py.lookup (lit "message") data = Some VNone ->
   search_jobs_internal py_repr coerce_int coerce_str data =
     Returns (MkJobSearchResponse false 0 [] None)) /\
  (forall items,
     Py.lookup (lit "message") data = Some (VList items) ->
     search_jobs_internal py_repr coerce_int coerce_str data = HTTPException 500) /\
  (forall m,
     optional_str_field coerce_str
       (Py.get_or data (lit "message") (VStr (lit "API error"))) = Some m ->
     search_jobs_internal py_repr coerce_int coerce_str data =
       Returns (MkJobSearchResponse false 0 [] m)) /\
  (optional_str_field coerce_str
     (Py.get_or data (lit "message") (VStr (lit "API error"))) = None ->
   search_jobs_internal py_repr coerce_int coerce_str data = HTTPException 500) /\
  (forall response,
     search_jobs_internal py_repr coerce_int coerce_str data = Returns response ->
     success response = false).
Proof.
  intros Herr Hcode.
  assert (Hfacade :
            search_jobs_internal py_repr coerce_int coerce_str data =
            match optional_str_field coerce_str
                    (Py.get_or data (lit "message") (VStr (lit "API error"))) with
            | Some m => Returns (MkJobSearchResponse false 0 [] m)
            | None => HTTPException 500
            end).
  { unfold search_jobs_internal, search_jobs_try. guards.
    rewrite (get_absent _ _ Hcode).
    cbn [Py.ne_zero validated int_field given_total_count given_message
         given_success given_jobs].
    now destruct (optional_str_field _ _). }
  unfold print_job_results, format_job_results.
  guards. rewrite (get_absent _ _ Hcode).
  split; [reflexivity | split; [reflexivity |]].
  rewrite Hfacade. split; [| split; [| split; [| split; [| split; [| split]]]]].
  - intros Hm. now rewrite (get_or_absent _ _ _ Hm).
  - intros m Hm. now rewrite (get_or_of_lookup _ _ _ Hm).
  - intros Hm. now rewrite (get_or_of_lookup _ _ _ Hm).
  - intros items Hm. now rewrite (get_or_of_lookup _ _ _ Hm).
  - now intros m ->.
  - now intros ->.
  - intros response.
    destruct (optional_str_field _ _); intros Hrun; [| discriminate Hrun].
    injection Hrun as <-. reflexivity.
Qed.

(** C1 (amended): with no error marker and [code] equal to 0, a missing
    [data] key makes the printer write the line naming [data] and the
    formatter return its no-job-data report; a [data] object without
    [job_post_list] makes the printer write the line naming [job_post_list]
    and the formatter return the same no-job-data report.  All of them are
    failure reports; the two lines of the printer differ. *)
Theorem C1_missing_keys_reported (data : dict) :
  no_error_marker data ->
  code_is_zero data ->
  (Py.has_key data (lit "data") = false ->
     print_job_results py_repr data = ([no_data_line], Ok tt) /\
     format_job_results py_repr data = Ok no_job_data) /\
  (forall data_section,
     Py.lookup (lit "data") data = Some (VDict data_section) ->
     Py.has_key data_section (lit "job_post_list") = false ->
     print_job_results py_repr data = ([no_list_line], Ok tt) /\
     format_job_results py_repr data = Ok no_job_data) /\
  no_data_line <> no_list_line /\
  is_failure_report no_data_line = true /\
  is_failure_report no_list_line = true /\
  is_failure_report no_job_data = true.
Proof.
  intros Herr Hcode. split; [| split].
  - intros Hdata. unfold print_job_results, format_job_results.
    unfold no_data_line, no_job_data. guards. split; reflexivity.
  - intros ds Hdata Hlist. unfold print_job_results, format_job_results.
    unfold no_list_line, no_job_data.
    guards. cbn [io_bind io_lift rbind Py.contains negb].
    guards. split; reflexivity.
  - split; [discriminate | repeat split].
Qed.

(** C2 (amended): with no error marker and a [code] that is present and
    differs from 0, the REST facade answers with [success=False] and the
    response's [message]; the printer writes, and the formatter returns,
    the API-error report holding that message.  Without a [message] key the
    facade's message is "API error", the one of the printer and of the
    formatter is "Unknown error". *)
Theorem C2_api_error_message (results : dict) (c : value) :
  no_error_marker results ->
  Py.lookup (lit "code") results = Some c ->
  Py.ne_zero c = true ->
  (forall m,
     Py.lookup (lit "message") results = Some (VStr m) ->
     search_jobs_internal py_repr coerce_int coerce_str results =
       Returns (MkJobSearchResponse false 0 [] (Some m)) /\
     print_job_results py_repr results = ([api_error_line m], Ok tt) /\
     format_job_results py_repr results = Ok (api_error_line m)) /\
  (Py.lookup (lit "message") results = None ->
     search_jobs_internal py_repr coerce_int coerce_str results =
       Returns (MkJobSearchResponse false 0 [] (Some (lit "API error"))) /\
     print_job_results py_repr results =
       ([api_error_line (lit "Unknown error")], Ok tt) /\
     format_job_results py_repr results =
       Ok (api_error_line (lit "Unknown error"))).
Proof.
  intros Herr Hc Hne.
  assert (Hcode : Py.ne_zero (Py.get results (lit "code")) = true)
    by now rewrite (get_of_lookup _ _ Hc).
  split; [intros m Hm | intros Hm];
    unfold print_job_results, format_job_results, search_jobs_internal,
      search_jobs_try;
    guards; repeat split.
Qed.

(** C7: with no error marker, [code] equal to 0 and an empty
    [data.job_post_list], the printer and the formatter report success
    with no records: the printer writes the line "Found <total> job(s),
    showing 0 results" and the none-found line, the formatter returns the
    none-found report with the total; the total is [data.count] if present,
    else 0, and neither report is a failure.  The facade answers
    [success=True] with no jobs and that total where pydantic takes the
    total for its [int] field (an absent or integer count), and HTTP 500
    where it refuses it (a null count). *)
Theorem C7_empty_list_is_success (data data_section : dict) :
  no_error_marker data ->
  code_is_zero data ->
  Py.lookup (lit "data") data = Some (VDict data_section) ->
  Py.lookup (lit "job_post_list") data_section = Some (VList []) ->
  let total := Py.get_or data_section (lit "count") (VInt 0) in
  let first_line :=
    lit "📋 Found " ++ py_str py_repr total ++ lit " job(s), showing 0 results" in
  let report :=
    lit "📭 No job postings found (Total: " ++ py_str py_repr total ++ lit ")" in
  print_job_results py_repr data =
    ([first_line; lit "📭 No job postings found"], Ok tt) /\
  format_job_results py_repr data = Ok report /\
  is_failure_report first_line = false /\
  is_failure_report report = false /\
  (Py.lookup (lit "count") data_section = None -> total = VInt 0) /\
  (forall c, Py.lookup (lit "count") data_section = Some c -> total = c) /\
  (forall n,
     int_field coerce_int total = Some n ->
     search_jobs_internal py_repr coerce_int coerce_str data =
       Returns (MkJobSearchResponse true n [] None)) /\
  (int_field coerce_int total = None ->
   search_jobs_internal py_repr coerce_int coerce_str data = HTTPException 500) /\
  (Py.lookup (lit "count") data_section = None ->
   search_jobs_internal py_repr coerce_int coerce_str data =
     Returns (MkJobSearchResponse true 0 [] None)) /\
  (forall n,
     Py.lookup (lit "count") data_section = Some (VInt n) ->
     search_jobs_internal py_repr coerce_int coerce_str data =
       Returns (MkJobSearchResponse true n [] None)) /\
  (Py.lookup (lit "count") data_section = Some VNone ->
   search_jobs_internal py_repr coerce_int coerce_str data = HTTPException 500).
Proof.
  intros Herr Hcode Hdata Hlist total first_line report.
  assert (Hshown :
            lit " job(s), showing " ++ py_str py_repr (VInt (Z.of_nat 0))
              ++ lit " results" = lit " job(s), showing 0 results")
    by (vm_compute; reflexivity).
  assert (Hfacade :
            search_jobs_internal py_repr coerce_int coerce_str data =
            match int_field coerce_int total with
            | Some n => Returns (MkJobSearchResponse true n [] None)
            | None => HTTPException 500
            end).
  { unfold search_jobs_internal, search_jobs_try. guards.
    cbn [rbind Py.vget_or]. guards.
    cbn [rbind Py.len Py.vget_or List.length Py.iter mapM].
    change (Z.of_nat 0) with 0%Z. fold total. unfold validated.
    cbn [given_total_count given_message given_success given_jobs
         optional_str_field].
    now destruct (int_field coerce_int total). }
  split; [| split; [| split; [| split; [| split; [| split]]]]].
  - unfold print_job_results. guards. cbn [negb]. rewrite ?io_bind_lift_ok.
    cbn [Py.contains]. guards. rewrite ?io_bind_lift_ok. cbn [negb].
    guards. rewrite ?io_bind_lift_ok. cbn [Py.len List.length].
    rewrite ?io_bind_lift_ok. cbn [Py.vget_or]. guards.
    rewrite ?io_bind_lift_ok, io_bind_print. cbn [Nat.eqb print fst snd io_bind].
    unfold found_line, first_line. change (Z.of_nat 0) with 0%Z in *.
    fold total. rewrite Hshown. reflexivity.
  - unfold format_job_results, report. guards. cbn [negb rbind Py.contains].
    guards. cbn [negb rbind Py.len List.length Py.vget_or Nat.eqb].
    guards. cbn [negb rbind Py.len List.length Py.vget_or Nat.eqb].
    change (Z.of_nat 0) with 0%Z. reflexivity.
  - unfold first_line. reflexivity.
  - unfold report. reflexivity.
  - intros Hc. unfold total. now rewrite (get_or_absent _ _ _ Hc).
  - intros c Hc. unfold total. now rewrite (get_or_of_lookup _ _ _ Hc).
  - rewrite Hfacade. split; [| split; [| split; [| split]]].
    + now intros n ->.
    + now intros ->.
    + intros Hc. unfold total. now rewrite (get_or_absent _ _ _ Hc).
    + intros n Hc. unfold total. now rewrite (get_or_of_lookup _ _ _ Hc).
    + intros Hc. unfold total. now rewrite (get_or_of_lookup _ _ _ Hc).
Qed.


Lemma has_key_true (d : dict) (k : str) :
  Py.has_key d k = true -> exists v, Py.lookup k d = Some v.
Proof.
  unfold Py.has_key. destruct (Py.lookup k d) as [v |]; [eauto | discriminate].
Qed.

Lemma reported_total_get_or (data_section : dict) (shown : nat) :
  Py.get_or data_section (lit "count") (VInt (Z.of_nat shown)) =
  reported_total data_section shown.
Proof. reflexivity. Qed.

Lemma print_inv (line0 line : str) (rest : list str) (r : result unit) :
  print line0 = (line :: rest, r) -> line = line0.
Proof. unfold print. now intros [= <- _ _]. Qed.

Lemma Ok_inv (A : Type) (a b : A) : Ok a = Ok b -> b = a.
Proof. now intros [= <-]. Qed.

Lemma Returns_inv (a b : JobSearchResponse) : Returns a = Returns b -> b = a.
Proof. now intros [= <-]. Qed.

Lemma Some_inv (A : Type) (a b : A) : Some a = Some b -> b = a.
Proof. now intros [= <-]. Qed.

(** Closes a branch that ended with a failure report. *)
Ltac failure_branch H Hreport :=
  first [apply print_inv in H | apply Ok_inv in H];
  subst; first [discriminate Hreport | vm_compute in Hreport; discriminate Hreport].

(** What the printer has written first, when that is not a failure line. *)
Lemma print_job_results_first_line (data : dict) line rest r :
  print_job_results py_repr data = (line :: rest, r) ->
  is_failure_report line = false ->
  exists data_section job_posts shown,
    Py.lookup (lit "data") data = Some (VDict data_section) /\
    Py.lookup (lit "job_post_list") data_section = Some job_posts /\
    Py.len job_posts = Ok shown /\
    line = found_line py_repr (reported_total data_section shown) shown.
Proof.
  unfold print_job_results. intros Hrun Hline.
  destruct (Py.truthy (Py.get data (lit "error"))) eqn:Herr.
  { rewrite (getitem_truthy _ _ Herr), io_bind_lift_ok in Hrun.
    failure_branch Hrun Hline. }
  destruct (Py.ne_zero (Py.get data (lit "code"))) eqn:Hcode.
  { failure_branch Hrun Hline. }
  destruct (Py.has_key data (lit "data")) eqn:Hdata; cbn [negb] in Hrun.
  2:{ failure_branch Hrun Hline. }
  destruct (has_key_true _ _ Hdata) as [section Hsection].
  rewrite (getitem_of_lookup _ _ Hsection), io_bind_lift_ok in Hrun.
  destruct section as [| | | | | | ds]; try discriminate Hrun.
  - (* a string that holds the key as a substring *)
    cbn [Py.contains] in Hrun. rewrite io_bind_lift_ok in Hrun.
    destruct (is_substring (lit "job_post_list") s); cbn [negb] in Hrun.
    + discriminate Hrun.
    + failure_branch Hrun Hline.
  - (* a list that holds the key as an element *)
    cbn [Py.contains] in Hrun. rewrite io_bind_lift_ok in Hrun.
    destruct (existsb _ l); cbn [negb] in Hrun.
    + discriminate Hrun.
    + failure_branch Hrun Hline.
  - cbn [Py.contains] in Hrun. rewrite io_bind_lift_ok in Hrun.
    destruct (Py.has_key ds (lit "job_post_list")) eqn:Hlist; cbn [negb] in Hrun.
    2:{ failure_branch Hrun Hline. }
    destruct (has_key_true _ _ Hlist) as [job_posts Hposts].
    rewrite (getitem_of_lookup _ _ Hposts), io_bind_lift_ok in Hrun.
    destruct (Py.len job_posts) as [shown | e] eqn:Hlen.
    2:{ discriminate Hrun. }
    rewrite io_bind_lift_ok in Hrun. cbn [Py.vget_or] in Hrun.
    rewrite io_bind_lift_ok, io_bind_print in Hrun.
    injection Hrun as <- _ _.
    exists ds, job_posts, shown. auto.
Qed.

(** What the formatter returns, when that is not a failure report. *)
Lemma format_job_results_success (data : dict) report :
  format_job_results py_repr data = Ok report ->
  is_failure_report report = false ->
  exists data_section job_posts shown,
    Py.lookup (lit "data") data = Some (VDict data_section) /\
    Py.lookup (lit "job_post_list") data_section = Some job_posts /\
    Py.len job_posts = Ok shown /\
    ((shown = 0 /\
      report = lit "📭 No job postings found (Total: "
                 ++ py_str py_repr (reported_total data_section shown) ++ lit ")") \/
     (shown <> 0 /\
      exists entries,
        report = join [nl; nl]
                   (found_header py_repr (reported_total data_section shown) shown
                      :: entries))).
Proof.
  unfold format_job_results. intros Hrun Hreport.
  destruct (Py.truthy (Py.get data (lit "error"))) eqn:Herr.
  { rewrite (getitem_truthy _ _ Herr) in Hrun. cbn [rbind] in Hrun.
    failure_branch Hrun Hreport. }
  destruct (Py.ne_zero (Py.get data (lit "code"))) eqn:Hcode.
  { failure_branch Hrun Hreport. }
  destruct (Py.has_key data (lit "data")) eqn:Hdata; cbn [negb rbind] in Hrun.
  2:{ failure_branch Hrun Hreport. }
  destruct (has_key_true _ _ Hdata) as [section Hsection].
  rewrite (getitem_of_lookup _ _ Hsection) in Hrun. cbn [rbind] in Hrun.
  destruct section as [| | | | | | ds]; try discriminate Hrun.
  - cbn [Py.contains rbind] in Hrun.
    destruct (is_substring (lit "job_post_list") s); cbn [negb Py.getitem rbind] in Hrun.
    + discriminate Hrun.
    + failure_branch Hrun Hreport.
  - cbn [Py.contains rbind] in Hrun.
    destruct (existsb _ l); cbn [negb Py.getitem rbind] in Hrun.
    + discriminate Hrun.
    + failure_branch Hrun Hreport.
  - cbn [Py.contains rbind] in Hrun.
    destruct (Py.has_key ds (lit "job_post_list")) eqn:Hlist; cbn [negb] in Hrun.
    2:{ failure_branch Hrun Hreport. }
    destruct (has_key_true _ _ Hlist) as [job_posts Hposts].
    rewrite (getitem_of_lookup _ _ Hposts) in Hrun. cbn [rbind] in Hrun.
    destruct (Py.len job_posts) as [shown | e] eqn:Hlen; cbn [rbind] in Hrun.
    2:{ discriminate Hrun. }
    cbn [Py.vget_or rbind] in Hrun. rewrite reported_total_get_or in Hrun.
    exists ds, job_posts, shown. repeat (split; [assumption |]).
    destruct shown as [| shown']; cbn [Nat.eqb] in Hrun.
    + left. apply Ok_inv in Hrun. auto.
    + right. split; [discriminate |].
      destruct (Py.iter job_posts) as [jobs | e]; cbn [rbind] in Hrun.
      2:{ discriminate Hrun. }
      destruct (format_jobs py_repr 1 jobs) as [entries | e]; cbn [rbind] in Hrun.
      2:{ discriminate Hrun. }
      apply Ok_inv in Hrun. eauto.
Qed.

(** What the facade answers, when it answers [success=True]. *)
Lemma search_jobs_internal_success (results : dict) response :
  search_jobs_internal py_repr coerce_int coerce_str results = Returns response ->
  success response = true ->
  exists data_section job_posts shown,
    Py.get_or results (lit "data") (VDict []) = VDict data_section /\
    Py.get_or data_section (lit "job_post_list") (VList []) = job_posts /\
    Py.len job_posts = Ok shown /\
    int_field coerce_int (reported_total data_section shown) =
      Some (total_count response).
Proof.
  unfold search_jobs_internal, search_jobs_try. intros Hrun Hsuccess.
  destruct (Py.truthy (Py.get results (lit "error"))) eqn:Herr.
  { rewrite (getitem_truthy _ _ Herr) in Hrun. cbn [rbind] in Hrun.
    destruct (validated _ _ _) as [answer |] eqn:Hanswer; [| discriminate Hrun].
    apply Returns_inv in Hrun. subst response.
    unfold validated in Hanswer. cbn [given_success] in Hanswer.
    destruct (int_field _ _); [| discriminate Hanswer].
    destruct (optional_str_field _ _); [| discriminate Hanswer].
    apply Some_inv in Hanswer. subst answer. discriminate Hsuccess. }
  destruct (Py.ne_zero (Py.get results (lit "code"))) eqn:Hcode.
  { destruct (validated _ _ _) as [answer |] eqn:Hanswer; [| discriminate Hrun].
    apply Returns_inv in Hrun. subst response.
    unfold validated in Hanswer. cbn [given_success] in Hanswer.
    destruct (int_field _ _); [| discriminate Hanswer].
    destruct (optional_str_field _ _); [| discriminate Hanswer].
    apply Some_inv in Hanswer. subst answer. discriminate Hsuccess. }
  destruct (Py.get_or results (lit "data") (VDict [])) as [| | | | | | ds];
    cbn [Py.vget_or rbind] in Hrun; try discriminate Hrun.
  destruct (Py.len _) as [shown | e] eqn:Hlen; cbn [rbind] in Hrun.
  2:{ discriminate Hrun. }
  destruct (Py.iter _) as [items | e]; cbn [rbind] in Hrun.
  2:{ discriminate Hrun. }
  destruct (mapM _ items) as [formatted | e]; cbn [rbind] in Hrun.
  2:{ discriminate Hrun. }
  unfold validated in Hrun.
  cbn [given_total_count given_message given_success given_jobs] in Hrun.
  rewrite reported_total_get_or in Hrun.
  destruct (int_field coerce_int (reported_total ds shown)) as [n |] eqn:Hint.
  2:{ discriminate Hrun. }
  cbn [optional_str_field] in Hrun.
  apply Returns_inv in Hrun. subst response. cbn [total_count].
  exists ds. eexists. exists shown. repeat split; assumption.
Qed.

(** C6: whenever normalisation succeeds, the reported total is [data.count]
    if the [count] key is present, and the number of records of
    [data.job_post_list] otherwise.  It stands after "Found" in the first
    line the printer writes and in the header of the formatter's listing,
    and after "Total:" in the formatter's report of an empty list.  In the
    facade's answer [total_count] is that total as pydantic reads it for
    the [int] field: the count itself when it is an integer, the number of
    records when there is no count. *)
Theorem C6_total_count_reported :
  (forall data_section shown c,
     Py.lookup (lit "count") data_section = Some c ->
     reported_total data_section shown = c) /\
  (forall data_section shown,
     Py.lookup (lit "count") data_section = None ->
     reported_total data_section shown = VInt (Z.of_nat shown)) /\
  (forall records, Py.len (VList records) = Ok (List.length records)) /\
  (forall data line rest r,
     print_job_results py_repr data = (line :: rest, r) ->
     is_failure_report line = false ->
     exists data_section job_posts shown,
       Py.lookup (lit "data") data = Some (VDict data_section) /\
       Py.lookup (lit "job_post_list") data_section = Some job_posts /\
       Py.len job_posts = Ok shown /\
       line =
         lit "📋 Found " ++ py_str py_repr (reported_total data_section shown)
           ++ lit " job(s), showing " ++ py_str py_repr (VInt (Z.of_nat shown))
           ++ lit " results") /\
  (forall data report,
     format_job_results py_repr data = Ok report ->
     is_failure_report report = false ->
     exists data_section job_posts shown,
       Py.lookup (lit "data") data = Some (VDict data_section) /\
       Py.lookup (lit "job_post_list") data_section = Some job_posts /\
       Py.len job_posts = Ok shown /\
       ((shown = 0 /\
         report = lit "📭 No job postings found (Total: "
                    ++ py_str py_repr (reported_total data_section shown) ++ lit ")") \/
        (shown <> 0 /\
         exists entries,
           report =
             join [nl; nl]
               (((lit "📋 Found "
                    ++ py_str py_repr (reported_total data_section shown)
                    ++ lit " job(s), showing "
                    ++ py_str py_repr (VInt (Z.of_nat shown))
                    ++ lit " results")
                   ++ [nl] ++ repeat_char 61%N 80)
                  :: entries)))) /\
  (forall results response,
     search_jobs_internal py_repr coerce_int coerce_str results = Returns response ->
     success response = true ->
     exists data_section job_posts shown,
       Py.get_or results (lit "data") (VDict []) = VDict data_section /\
       Py.get_or data_section (lit "job_post_list") (VList []) = job_posts /\
       Py.len job_posts = Ok shown /\
       int_field coerce_int (reported_total data_section shown) =
         Some (total_count response) /\
       (forall n,
          Py.lookup (lit "count") data_section = Some (VInt n) ->
          total_count response = n) /\
       (Py.lookup (lit "count") data_section = None ->
        total_count response = Z.of_nat shown)).
Proof.
  split; [| split; [| split; [| split; [| split]]]].
  - intros ds shown c Hc. unfold reported_total. now rewrite Hc.
  - intros ds shown Hc. unfold reported_total. now rewrite Hc.
  - reflexivity.
  - exact print_job_results_first_line.
  - exact format_job_results_success.
  - intros results response Hrun Hsuccess.
    destruct (search_jobs_internal_success _ Hrun Hsuccess)
      as (ds & job_posts & shown & Hdata & Hposts & Hlen & Htotal).
    exists ds, job_posts, shown. repeat (split; [assumption |]). split.
    + intros n Hc. unfold reported_total in Htotal. rewrite Hc in Htotal.
      cbn [int_field] in Htotal. now apply Some_inv in Htotal.
    + intros Hc. unfold reported_total in Htotal. rewrite Hc in Htotal.
      cbn [int_field] in Htotal. now apply Some_inv in Htotal.
Qed.


(** *** Previews *)

Lemma truncate_short (boundary : nat) (clean : str) :
  List.length clean <= boundary -> truncate boundary clean = clean.
Proof.
  intros Hle. unfold truncate.
  destruct (Nat.ltb_spec boundary (List.length clean)); [lia | reflexivity].
Qed.

Lemma truncate_long (boundary : nat) (clean : str) :
  boundary < List.length clean ->
  truncate boundary clean = firstn boundary clean ++ lit "...".
Proof.
  intros Hlt. unfold truncate.
  destruct (Nat.ltb_spec boundary (List.length clean)); [reflexivity | lia].
Qed.

Lemma truncate_length (boundary : nat) (clean : str) :
  List.length (truncate boundary clean) =
  Nat.min (List.length clean) boundary
  + (if boundary <? List.length clean then 3 else 0).
Proof.
  unfold truncate.
  destruct (Nat.ltb_spec boundary (List.length clean)) as [Hlt | Hle].
  - rewrite length_app, length_firstn. change (List.length (lit "...")) with 3. lia.
  - lia.
Qed.

(** The two optional lines of a round: what the block that may append a
    preview line does to the list built so far. *)
Lemma preview_block (job : dict) (key label : str) (boundary : nat)
      (info out : list str) :
  (if Py.truthy (Py.get_or job key VNone) then
     text <- Py.getitem (VDict job) key ;;
     shown <- preview_value boundary text ;;
     Ok (info ++ [label ++ shown])
   else Ok info) = Ok out ->
  (forall line, In line info -> In line out) /\
  (forall text,
     Py.lookup key job = Some (VStr text) -> text <> [] ->
     In (label ++ preview boundary text) out).
Proof.
  unfold Py.get_or, Py.getitem.
  destruct (Py.lookup key job) as [v |].
  - destruct (Py.truthy v) eqn:Hv; cbn [rbind].
    + destruct (preview_value boundary v) as [shown |] eqn:Hshown; cbn [rbind];
        [| now intros [=]].
      intros Hout. apply Ok_inv in Hout. subst out. split.
      * intros line Hin. apply in_or_app. now left.
      * intros text [= ->] _. cbn [preview_value] in Hshown.
        apply Ok_inv in Hshown. subst shown.
        apply in_or_app. right. now left.
    + intros Hout. apply Ok_inv in Hout. subst out. split; [auto |].
      intros text [= ->] Hne. destruct text; [congruence | discriminate Hv].
  - cbn [Py.truthy]. intros Hout. apply Ok_inv in Hout. subst out.
    split; [auto | discriminate].
Qed.

(** Runs the two optional blocks at the end of [job_info]. *)
Ltac job_info_blocks Hdesc Hreq :=
  match goal with
  | |- rbind ?m _ = _ -> _ =>
    destruct m as [? | ?] eqn:Hdesc; cbn [rbind]; [| now intros [=]]
  end;
  match goal with
  | |- rbind ?m _ = _ -> _ =>
    destruct m as [? | ?] eqn:Hreq; cbn [rbind]; [| now intros [=]]
  end;
  apply preview_block in Hdesc; apply preview_block in Hreq.

(** The description and requirement lines of a round, read off the list the
    round has built. *)
Lemma job_info_preview_lines (i : nat) (job : dict) (lines : list str) :
  job_info py_repr i (VDict job) = Ok lines ->
  (forall text,
     Py.lookup (lit "description") job = Some (VStr text) -> text <> [] ->
     In (lit "   📝 Description: " ++ preview 150 text) lines) /\
  (forall text,
     Py.lookup (lit "requirement") job = Some (VStr text) -> text <> [] ->
     In (lit "   📋 Requirements: " ++ preview 100 text) lines).
Proof.
  unfold job_info. cbn [Py.vget_or rbind].
  destruct (_extract_locations py_repr (VDict job)) as [locations | e];
    cbn [rbind]; [| now intros [=]].
  destruct (location_str locations) as [loc | e]; cbn [rbind];
    [| now intros [=]].
  job_info_blocks Hdesc Hreq.
  intros Hlines. apply Ok_inv in Hlines. subst lines.
  destruct Hdesc as [_ Hdesc], Hreq as [Hkeep Hreq]. split.
  - intros text Htext Hne. apply Hkeep. now apply Hdesc.
  - exact Hreq.
Qed.

(** *** The lines a round of the printer writes *)

Lemma io_bind_ok (A B : Type) (m : io A) (k : A -> io B) out (b : B) :
  io_bind m k = (out, Ok b) ->
  exists a o1 o2, m = (o1, Ok a) /\ k a = (o2, Ok b) /\ out = o1 ++ o2.
Proof.
  unfold io_bind. destruct m as [o1 [a | e]]; [| discriminate].
  destruct (k a) as [o2 r] eqn:Hk. intros [= <- ->]. eauto 6.
Qed.

Lemma print_preview_block (v : value) (label : str) (boundary : nat)
      (o : list str) (r : result unit) (text : str) :
  (if Py.truthy v then
     shown <+ io_lift (preview_value boundary v) ;;
     print (label ++ shown)
   else io_ret tt) = (o, r) ->
  v = VStr text -> text <> [] ->
  o = [label ++ preview boundary text].
Proof.
  intros Hrun -> Hne. destruct text as [| ch text']; [congruence |].
  cbn [Py.truthy preview_value] in Hrun. rewrite io_bind_lift_ok in Hrun.
  unfold print in Hrun. now injection Hrun as <- _.
Qed.

(** Splits a completed sequence of the printer at its first statement. *)
Ltac first_statement H :=
  first
    [ rewrite io_bind_lift_ok in H
    | let o := fresh "o" in
      let Hm := fresh "Hm" in
      apply io_bind_ok in H;
      destruct H as (? & o & ? & Hm & H & ->) ];
  cbv beta in H.

Lemma print_job_lines (i : nat) (job : dict) (out : list str) :
  print_job py_repr i (VDict job) = (out, Ok tt) ->
  In (lit "   🔗 URL: " ++ detail_url py_repr (Py.get_or job (lit "id") (VStr [])))
     out /\
  (forall text,
     Py.lookup (lit "description") job = Some (VStr text) -> text <> [] ->
     In (lit "   📝 Description: " ++ preview 150 text) out) /\
  (forall text,
     Py.lookup (lit "requirement") job = Some (VStr text) -> text <> [] ->
     In (lit "   📋 Requirements: " ++ preview 100 text) out).
Proof.
  unfold print_job. cbn [Py.vget_or]. intros Hrun.
  do 15 first_statement Hrun.
  repeat match goal with
  | H : print _ = (_, _) |- _ => unfold print in H; injection H as <- _
  end.
  split; [| split].
  - rewrite !in_app_iff. cbn [In]. tauto.
  - intros text Htext Hne.
    match goal with
    | H : (if Py.truthy (Py.get_or job (lit "description") _) then _ else _) = _
      |- _ =>
      rewrite (print_preview_block _ _ H (get_or_of_lookup _ _ _ Htext) Hne)
    end.
    rewrite !in_app_iff. cbn [In]. tauto.
  - intros text Htext Hne.
    match goal with
    | H : (if Py.truthy (Py.get_or job (lit "requirement") _) then _ else _) = _
      |- _ =>
      rewrite (print_preview_block _ _ H (get_or_of_lookup _ _ _ Htext) Hne)
    end.
    rewrite !in_app_iff. cbn [In]. tauto.
Qed.

(** C3: the preview of a text is its cleaned form when that has at most
    [boundary] characters, and the first [boundary] characters of the
    cleaned form followed by "..." when it has more; its length is
    [min L boundary] plus 3 exactly when [L > boundary], hence at most
    [boundary + 3].  The printer and the formatter apply it with boundary
    150 to [description] and with boundary 100 to [requirement]. *)
Theorem C3_preview_truncation (boundary : nat) (text : str) :
  let clean := clean_text text in
  let L := List.length clean in
  (L <= boundary -> preview boundary text = clean) /\
  (boundary < L -> preview boundary text = firstn boundary clean ++ lit "...") /\
  List.length (preview boundary text) =
    Nat.min L boundary + (if boundary <? L then 3 else 0) /\
  List.length (preview boundary text) <= boundary + 3 /\
  (forall i job lines,
     job_info py_repr i (VDict job) = Ok lines ->
     (Py.lookup (lit "description") job = Some (VStr text) -> text <> [] ->
      In (lit "   📝 Description: " ++ preview 150 text) lines) /\
     (Py.lookup (lit "requirement") job = Some (VStr text) -> text <> [] ->
      In (lit "   📋 Requirements: " ++ preview 100 text) lines)) /\
  (forall i job out,
     print_job py_repr i (VDict job) = (out, Ok tt) ->
     (Py.lookup (lit "description") job = Some (VStr text) -> text <> [] ->
      In (lit "   📝 Description: " ++ preview 150 text) out) /\
     (Py.lookup (lit "requirement") job = Some (VStr text) -> text <> [] ->
      In (lit "   📋 Requirements: " ++ preview 100 text) out)).
Proof.
  intros clean L. unfold preview. fold clean.
  split; [| split; [| split; [| split; [| split]]]].
  - apply truncate_short.
  - apply truncate_long.
  - apply truncate_length.
  - rewrite truncate_length. fold L.
    destruct (Nat.ltb_spec boundary L); lia.
  - intros i job lines Hrun.
    destruct (job_info_preview_lines _ _ Hrun) as [Hdesc Hreq].
    split; [apply Hdesc | apply Hreq].
  - intros i job out Hrun.
    destruct (print_job_lines _ _ Hrun) as (_ & Hdesc & Hreq).
    split; [apply Hdesc | apply Hreq].
Qed.

(** *** Locations *)

Lemma vget_or_dict (d : dict) (k : str) (default : value) :
  Py.vget_or (VDict d) k default = Ok (Py.get_or d k default).
Proof. reflexivity. Qed.

Lemma extract_locations_city_info (job : dict) :
  Py.truthy (Py.get job (lit "city_info")) = true ->
  _extract_locations py_repr (VDict job) =
  Ok [location_of py_repr (Py.get job (lit "city_info"))].
Proof.
  intros Hinfo. unfold _extract_locations.
  rewrite vget_or_dict. fold (Py.get job (lit "city_info")).
  cbn [rbind]. rewrite Hinfo, (getitem_truthy _ _ Hinfo). reflexivity.
Qed.

Lemma extract_locations_city_list (job : dict) :
  Py.truthy (Py.get job (lit "city_info")) = false ->
  Py.truthy (Py.get job (lit "city_list")) = true ->
  _extract_locations py_repr (VDict job) =
  (cities <- Py.iter (Py.get job (lit "city_list")) ;;
   Ok (map (location_of py_repr) cities)).
Proof.
  intros Hinfo Hlist. unfold _extract_locations.
  rewrite !vget_or_dict.
  fold (Py.get job (lit "city_info")). fold (Py.get job (lit "city_list")).
  cbn [rbind]. rewrite Hinfo, Hlist, (getitem_truthy _ _ Hlist). reflexivity.
Qed.

Lemma extract_locations_neither (job : dict) :
  Py.truthy (Py.get job (lit "city_info")) = false ->
  Py.truthy (Py.get job (lit "city_list")) = false ->
  _extract_locations py_repr (VDict job) = Ok [].
Proof.
  intros Hinfo Hlist. unfold _extract_locations.
  rewrite !vget_or_dict.
  fold (Py.get job (lit "city_info")). fold (Py.get job (lit "city_list")).
  cbn [rbind]. now rewrite Hinfo, Hlist.
Qed.

(** C4 (amended): [city_info], when its value is truthy, gives the one
    location taken from it; otherwise [city_list], when it is a non-empty
    list, gives the locations of its elements in order; when neither value
    is truthy (absent, null or empty) there is no location.  One location is
    the [name] of an object (its string form if it has no [name]) or the
    string itself. *)
Theorem C4_location_extraction (job : dict) :
  (Py.truthy (Py.get job (lit "city_info")) = true ->
   _extract_locations py_repr (VDict job) =
   Ok [location_of py_repr (Py.get job (lit "city_info"))]) /\
  (Py.truthy (Py.get job (lit "city_info")) = false ->
   forall city cities,
     Py.get job (lit "city_list") = VList (city :: cities) ->
     _extract_locations py_repr (VDict job) =
     Ok (map (location_of py_repr) (city :: cities))) /\
  (Py.truthy (Py.get job (lit "city_info")) = false ->
   Py.truthy (Py.get job (lit "city_list")) = false ->
   _extract_locations py_repr (VDict job) = Ok []) /\
  (Py.lookup (lit "city_info") job = None ->
   Py.lookup (lit "city_list") job = None ->
   _extract_locations py_repr (VDict job) = Ok []) /\
  (forall c name,
     Py.lookup (lit "name") c = Some name ->
     location_of py_repr (VDict c) = name) /\
  (forall c,
     Py.lookup (lit "name") c = None ->
     location_of py_repr (VDict c) = VStr (py_str py_repr (VDict c))) /\
  (forall s, location_of py_repr (VStr s) = VStr s) /\
  _extract_locations py_repr (VDict job_beijing) = Ok [VStr (lit "Beijing")] /\
  _extract_locations py_repr (VDict job_two_cities) =
    Ok [VStr (lit "A"); VStr (lit "B")] /\
  _extract_locations py_repr (VDict job_no_city) = Ok [].
Proof.
  repeat match goal with |- _ /\ _ => split end; try reflexivity.
  - apply extract_locations_city_info.
  - intros Hinfo city cities Hlist.
    rewrite extract_locations_city_list; [| assumption | now rewrite Hlist].
    now rewrite Hlist.
  - apply extract_locations_neither.
  - intros Hinfo Hlist.
    apply extract_locations_neither; [rewrite (get_absent _ _ Hinfo) | rewrite (get_absent _ _ Hlist)]; reflexivity.
  - intros c name Hname. cbn [location_of]. now rewrite (get_or_of_lookup _ _ _ Hname).
  - intros c Hname. cbn [location_of]. now rewrite (get_or_absent _ _ _ Hname).
Qed.

(** *** Detail URL *)

Lemma job_info_url_line (i : nat) (job : dict) (lines : list str) :
  job_info py_repr i (VDict job) = Ok lines ->
  In (lit "   🔗 URL: " ++ detail_url py_repr (Py.get_or job (lit "id") (VStr [])))
     lines.
Proof.
  unfold job_info. cbn [Py.vget_or rbind].
  destruct (_extract_locations py_repr (VDict job)) as [locations | e];
    cbn [rbind]; [| now intros [=]].
  destruct (location_str locations) as [loc | e]; cbn [rbind];
    [| now intros [=]].
  job_info_blocks Hdesc Hreq.
  intros Hlines. apply Ok_inv in Hlines. subst lines.
  apply Hreq, Hdesc. apply in_or_app. right. now left.
Qed.

(** C5: the detail URL of a record is the fixed prefix, the record's [id]
    (the empty string if the key is absent) and "/detail"; it is the URL
    line of the record in the printer's output and in the formatter's
    entry. *)
Theorem C5_detail_url (job : dict) :
  let job_id := Py.get_or job (lit "id") (VStr []) in
  detail_url py_repr job_id =
    lit "https://xiaomi.jobs.f.mioffice.cn/index/position/"
      ++ py_str py_repr job_id ++ lit "/detail" /\
  (forall s,
     Py.lookup (lit "id") job = Some (VStr s) ->
     detail_url py_repr job_id =
     lit "https://xiaomi.jobs.f.mioffice.cn/index/position/" ++ s ++ lit "/detail") /\
  (Py.lookup (lit "id") job = None ->
   detail_url py_repr job_id =
   lit "https://xiaomi.jobs.f.mioffice.cn/index/position//detail") /\
  detail_url py_repr (Py.get_or job_12345 (lit "id") (VStr [])) =
    lit "https://xiaomi.jobs.f.mioffice.cn/index/position/12345/detail" /\
  (forall i lines,
     job_info py_repr i (VDict job) = Ok lines ->
     In (lit "   🔗 URL: " ++ detail_url py_repr job_id) lines) /\
  (forall i out,
     print_job py_repr i (VDict job) = (out, Ok tt) ->
     In (lit "   🔗 URL: " ++ detail_url py_repr job_id) out).
Proof.
  intros job_id. subst job_id.
  split; [reflexivity |]. split; [| split; [| split; [| split]]].
  - intros s Hid. now rewrite (get_or_of_lookup _ _ _ Hid).
  - intros Hid. now rewrite (get_or_absent _ _ _ Hid).
  - reflexivity.
  - intros i lines. apply job_info_url_line.
  - intros i out Hrun. apply (print_job_lines _ _ Hrun).
Qed.

(** *** Containers *)

Lemma getitem_has_key (d : dict) (k : str) (v : value) :
  Py.getitem (VDict d) k = Ok v -> Py.has_key d k = true.
Proof.
  unfold Py.getitem, Py.has_key. destruct (Py.lookup k d); [reflexivity | discriminate].
Qed.

Lemma len_iter (c : value) (n : nat) :
  Py.len c = Ok n -> exists items, Py.iter c = Ok items.
Proof. destruct c; cbn [Py.len Py.iter]; try discriminate; eauto. Qed.

Lemma getitem_vget_or (c : value) (k k' : str) (v default : value) :
  Py.getitem c k = Ok v -> exists w, Py.vget_or c k' default = Ok w.
Proof. destruct c; cbn [Py.getitem Py.vget_or]; try discriminate; eauto. Qed.

End Properties.

(** ** The properties at sample responses *)

Lemma C1_witness :
  no_error_marker resp_code0_empty_data /\
  code_is_zero resp_code0_empty_data /\
  print_job_results repr_any resp_code0_empty_data = ([no_list_line], Ok tt) /\
  format_job_results repr_any resp_code0_empty_data = Ok no_job_data.
Proof.
  assert (Herr : no_error_marker resp_code0_empty_data)
    by (vm_compute; reflexivity).
  assert (Hcode : code_is_zero resp_code0_empty_data)
    by (exists (VInt 0); vm_compute; split; reflexivity).
  split; [exact Herr | split; [exact Hcode |]].
  destruct (C1_missing_keys_reported repr_any Herr Hcode) as [_ [Hlist _]].
  apply (Hlist []); vm_compute; reflexivity.
Defined.

(** C1 as stated fails: the formatter gives a missing [data] key and a
    missing [job_post_list] key the same report, and without a [code] key
    the printer reports an API error in both cases. *)
Lemma C1_counterexample :
  Py.has_key resp_code0 (lit "data") = false /\
  Py.lookup (lit "data") resp_code0_empty_data = Some (VDict []) /\
  Py.has_key [] (lit "job_post_list") = false /\
  format_job_results repr_any resp_code0 = Ok no_job_data /\
  format_job_results repr_any resp_code0_empty_data = Ok no_job_data /\
  print_job_results repr_any resp_empty =
    ([api_error_line (lit "Unknown error")], Ok tt) /\
  print_job_results repr_any resp_empty_data =
    ([api_error_line (lit "Unknown error")], Ok tt).
Proof. vm_compute. repeat split. Qed.

Lemma C2_witness :
  no_error_marker resp_code1_msg /\
  Py.lookup (lit "code") resp_code1_msg = Some (VInt 1) /\
  Py.ne_zero (VInt 1) = true /\
  Py.lookup (lit "message") resp_code1_msg = Some (VStr (lit "quota exceeded")) /\
  search_jobs_internal repr_any strict_int strict_str resp_code1_msg =
    Returns (MkJobSearchResponse false 0 [] (Some (lit "quota exceeded"))) /\
  print_job_results repr_any resp_code1_msg =
    ([api_error_line (lit "quota exceeded")], Ok tt) /\
  format_job_results repr_any resp_code1_msg =
    Ok (api_error_line (lit "quota exceeded")).
Proof.
  assert (Herr : no_error_marker resp_code1_msg) by (vm_compute; reflexivity).
  assert (Hcode : Py.lookup (lit "code") resp_code1_msg = Some (VInt 1))
    by (vm_compute; reflexivity).
  assert (Hne : Py.ne_zero (VInt 1) = true) by reflexivity.
  assert (Hmsg : Py.lookup (lit "message") resp_code1_msg
                 = Some (VStr (lit "quota exceeded")))
    by (vm_compute; reflexivity).
  repeat (split; [assumption |]).
  destruct (C2_api_error_message repr_any strict_int strict_str Herr Hcode Hne)
    as [Hpresent _].
  exact (Hpresent _ Hmsg).
Defined.

(** C2 as stated fails: without a [message] key the printer reports
    "Unknown error"; the words "API error" do not occur in its line. *)
Lemma C2_counterexample :
  no_error_marker resp_code1 /\
  Py.lookup (lit "code") resp_code1 = Some (VInt 1) /\
  Py.ne_zero (VInt 1) = true /\
  Py.lookup (lit "message") resp_code1 = None /\
  print_job_results repr_any resp_code1 =
    ([api_error_line (lit "Unknown error")], Ok tt) /\
  is_substring (lit "API error") (api_error_line (lit "Unknown error")) = false /\
  api_error_line (lit "Unknown error") <> api_error_line (lit "API error").
Proof.
  repeat split; try (vm_compute; reflexivity).
  vm_compute. discriminate.
Qed.

Lemma C3_witness :
  150 < List.length (clean_text (repeat 65%N 200)) /\
  preview 150 (repeat 65%N 200) =
    firstn 150 (clean_text (repeat 65%N 200)) ++ lit "..." /\
  List.length (preview 150 (repeat 65%N 200)) = 153.
Proof.
  assert (Hlong : 150 < List.length (clean_text (repeat 65%N 200)))
    by (vm_compute; lia).
  split; [exact Hlong |].
  destruct (C3_preview_truncation repr_any 150 (repeat 65%N 200))
    as (_ & Hcut & Hlen & _).
  split; [exact (Hcut Hlong) |].
  rewrite Hlen. vm_compute. reflexivity.
Defined.

Lemma C4_witness :
  Py.truthy (Py.get job_null_city_info (lit "city_info")) = false /\
  Py.get job_null_city_info (lit "city_list")
    = VList [VDict [(lit "name", VStr (lit "A"))]] /\
  _extract_locations repr_any (VDict job_null_city_info) =
    Ok (map (location_of repr_any) [VDict [(lit "name", VStr (lit "A"))]]).
Proof.
  assert (Hinfo : Py.truthy (Py.get job_null_city_info (lit "city_info")) = false)
    by (vm_compute; reflexivity).
  assert (Hlist : Py.get job_null_city_info (lit "city_list")
                  = VList [VDict [(lit "name", VStr (lit "A"))]])
    by (vm_compute; reflexivity).
  split; [exact Hinfo | split; [exact Hlist |]].
  destruct (C4_location_extraction repr_any job_null_city_info) as (_ & Hcities & _).
  exact (Hcities Hinfo _ _ Hlist).
Defined.

(** C4 as stated fails: [city_info] is present (and null), yet the
    locations are those of [city_list], not the one location of
    [city_info]. *)
Lemma C4_counterexample :
  Py.lookup (lit "city_info") job_null_city_info = Some VNone /\
  spec_locations repr_any job_null_city_info = Some [VStr (lit "None")] /\
  _extract_locations repr_any (VDict job_null_city_info) = Ok [VStr (lit "A")].
Proof. vm_compute. repeat split. Qed.

Lemma C5_witness :
  Py.lookup (lit "id") job_12345 = Some (VStr (lit "12345")) /\
  detail_url repr_any (Py.get_or job_12345 (lit "id") (VStr [])) =
    lit "https://xiaomi.jobs.f.mioffice.cn/index/position/" ++ lit "12345"
      ++ lit "/detail".
Proof.
  assert (Hid : Py.lookup (lit "id") job_12345 = Some (VStr (lit "12345")))
    by (vm_compute; reflexivity).
  split; [exact Hid |].
  destruct (C5_detail_url repr_any job_12345) as (_ & Hpresent & _).
  exact (Hpresent _ Hid).
Defined.

Lemma C6_witness :
  (exists rest,
     print_job_results repr_any resp_counted =
       (lit "📋 Found 42 job(s), showing 1 results" :: rest, Ok tt)) /\
  is_failure_report (lit "📋 Found 42 job(s), showing 1 results") = false /\
  (exists data_section job_posts shown,
     Py.lookup (lit "data") resp_counted = Some (VDict data_section) /\
     Py.lookup (lit "job_post_list") data_section = Some job_posts /\
     Py.len job_posts = Ok shown /\
     lit "📋 Found 42 job(s), showing 1 results" =
       lit "📋 Found " ++ py_str repr_any (reported_total data_section shown)
         ++ lit " job(s), showing " ++ py_str repr_any (VInt (Z.of_nat shown))
         ++ lit " results") /\
  reported_total [(lit "count", VInt 42);
                  (lit "job_post_list", VList [VDict job_described])] 1 = VInt 42 /\
  (exists response,
     search_jobs_internal repr_any strict_int strict_str resp_counted =
       Returns response /\
     success response = true /\
     total_count response = 42%Z /\
     exists data_section job_posts shown,
       Py.get_or resp_counted (lit "data") (VDict []) = VDict data_section /\
       Py.get_or data_section (lit "job_post_list") (VList []) = job_posts /\
       Py.len job_posts = Ok shown /\
       int_field strict_int (reported_total data_section shown) =
         Some (total_count response) /\
       (forall n,
          Py.lookup (lit "count") data_section = Some (VInt n) ->
          total_count response = n) /\
       (Py.lookup (lit "count") data_section = None ->
        total_count response = Z.of_nat shown)).
Proof.
  destruct (C6_total_count_reported repr_any strict_int strict_str)
    as (Hcount & _ & _ & Hprint & _ & Hfacade).
  assert (Hline :
            is_failure_report (lit "📋 Found 42 job(s), showing 1 results") = false)
    by (vm_compute; reflexivity).
  destruct (print_job_results repr_any resp_counted) as [out r] eqn:Hrun.
  assert (Hout : exists rest,
             (out, r) = (lit "📋 Found 42 job(s), showing 1 results" :: rest, Ok tt)).
  { rewrite <- Hrun. vm_compute. eexists. reflexivity. }
  destruct Hout as [rest Hout].
  split; [exists rest; exact Hout |].
  split; [exact Hline |].
  split; [rewrite Hout in Hrun; exact (Hprint _ _ _ _ Hrun Hline) |].
  split; [apply (Hcount _ 1 (VInt 42)); vm_compute; reflexivity |].
  destruct (search_jobs_internal repr_any strict_int strict_str resp_counted)
    as [response | status] eqn:Hanswer; [| vm_compute in Hanswer; discriminate Hanswer].
  assert (Hfields : success response = true /\ total_count response = 42%Z).
  { pose proof Hanswer as Hvalue. vm_compute in Hvalue.
    apply Returns_inv in Hvalue. subst response. split; reflexivity. }
  destruct Hfields as [Hsuccess Htotal].
  exists response. split; [reflexivity |].
  split; [exact Hsuccess | split; [exact Htotal |]].
  exact (Hfacade _ _ Hanswer Hsuccess).
Defined.

Lemma C7_witness :
  no_error_marker resp_no_jobs /\
  code_is_zero resp_no_jobs /\
  print_job_results repr_any resp_no_jobs =
    ([lit "📋 Found " ++ lit "0" ++ lit " job(s), showing 0 results";
      lit "📭 No job postings found"], Ok tt) /\
  format_job_results repr_any resp_no_jobs =
    Ok (lit "📭 No job postings found (Total: " ++ lit "0" ++ lit ")") /\
  search_jobs_internal repr_any strict_int strict_str resp_no_jobs =
    Returns (MkJobSearchResponse true 0 [] None) /\
  no_error_marker resp_null_count /\
  code_is_zero resp_null_count /\
  format_job_results repr_any resp_null_count =
    Ok (lit "📭 No job postings found (Total: " ++ lit "None" ++ lit ")") /\
  search_jobs_internal repr_any strict_int strict_str resp_null_count =
    HTTPException 500.
Proof.
  assert (Herr : no_error_marker resp_no_jobs) by (vm_compute; reflexivity).
  assert (Hcode : code_is_zero resp_no_jobs)
    by (exists (VInt 0); vm_compute; split; reflexivity).
  assert (Herr' : no_error_marker resp_null_count) by (vm_compute; reflexivity).
  assert (Hcode' : code_is_zero resp_null_count)
    by (exists (VInt 0); vm_compute; split; reflexivity).
  destruct (@C7_empty_list_is_success repr_any strict_int strict_str resp_no_jobs
              [(lit "job_post_list", VList [])] Herr Hcode)
    as (Hprint & Hformat & _ & _ & _ & _ & _ & _ & Hfacade & _);
    try (vm_compute; reflexivity).
  destruct (@C7_empty_list_is_success repr_any strict_int strict_str resp_null_count
              [(lit "count", VNone); (lit "job_post_list", VList [])] Herr' Hcode')
    as (_ & Hformat' & _ & _ & _ & _ & _ & _ & _ & _ & Hfacade');
    try (vm_compute; reflexivity).
  split; [exact Herr | split; [exact Hcode |]].
  split; [exact Hprint | split; [exact Hformat |]].
  split; [apply Hfacade; vm_compute; reflexivity |].
  split; [exact Herr' | split; [exact Hcode' |]].
  split; [exact Hformat' |].
  apply Hfacade'. vm_compute. reflexivity.
Defined.

Lemma C8_witness :
  Py.has_key resp_code0 (lit "data") = false /\
  ((exists line,
      print_job_results repr_any resp_code0 = ([line], Ok tt) /\
      is_failure_report line = true) /\
   (exists report,
      format_job_results repr_any resp_code0 = Ok report /\
      is_failure_report report = true)).
Proof.
  assert (Hdata : Py.has_key resp_code0 (lit "data") = false)
    by (vm_compute; reflexivity).
  split; [exact Hdata |].
  exact (C8_missing_data_fails_without_raising repr_any resp_code0 Hdata).
Defined.

Lemma C10_witness :
  no_error_marker resp_no_code /\
  Py.lookup (lit "code") resp_no_code = None /\
  Py.lookup (lit "message") resp_no_code = None /\
  print_job_results repr_any resp_no_code =
    ([api_error_line (lit "Unknown error")], Ok tt) /\
  format_job_results repr_any resp_no_code =
    Ok (api_error_line (lit "Unknown error")) /\
  search_jobs_internal repr_any strict_int strict_str resp_no_code =
    Returns (MkJobSearchResponse false 0 [] (Some (lit "API error"))).
Proof.
  assert (Herr : no_error_marker resp_no_code) by (vm_compute; reflexivity).
  assert (Hcode : Py.lookup (lit "code") resp_no_code = None)
    by (vm_compute; reflexivity).
  assert (Hmsg : Py.lookup (lit "message") resp_no_code = None)
    by (vm_compute; reflexivity).
  split; [exact Herr | split; [exact Hcode | split; [exact Hmsg |]]].
  destruct (C10_missing_code_is_api_error repr_any strict_int strict_str Herr Hcode)
    as (Hprint & Hformat & Habsent & _).
  split; [exact Hprint | split; [exact Hformat |]].
  exact (Habsent Hmsg).
Defined.

(** C10 as stated fails for the facade: with no error marker and no [code]
    key, a [message] that is a list makes the facade answer HTTP 500, not
    the API-error failure; this holds whatever pydantic converts. *)
Lemma C10_counterexample :
  no_error_marker resp_list_message /\
  Py.lookup (lit "code") resp_list_message = None /\
  (forall coerce_int coerce_str,
     search_jobs_internal repr_any coerce_int coerce_str resp_list_message =
       HTTPException 500) /\
  (forall coerce_int coerce_str response,
     search_jobs_internal repr_any coerce_int coerce_str resp_list_message <>
       Returns response).
Proof.
  assert (Hraise : forall coerce_int coerce_str,
             search_jobs_internal repr_any coerce_int coerce_str resp_list_message =
               HTTPException 500)
    by (intros coerce_int coerce_str; vm_compute; reflexivity).
  split; [vm_compute; reflexivity | split; [vm_compute; reflexivity |]].
  split; [exact Hraise |].
  intros coerce_int coerce_str response Hrun.
  rewrite Hraise in Hrun. discriminate Hrun.
Qed.

(** The end-to-end scenario: one job with a 200-character description. *)
Example end_to_end_scenario :
  exists report,
    format_job_results repr_any resp_one_job = Ok report /\
    is_failure_report report = false /\
    _extract_locations repr_any (VDict job_described) = Ok [VStr (lit "Shenzhen")] /\
    List.length (preview 150 (repeat 65%N 200)) = 153 /\
    detail_url repr_any (Py.get_or job_described (lit "id") (VStr [])) =
      lit "https://xiaomi.jobs.f.mioffice.cn/index/position/9/detail".
Proof. eexists. vm_compute. repeat split. Qed.

(** ** Properties of the further code *)

(** *** The webhook registry *)

Lemma register_all_ids (requests : list (WebhookRequest * str)) :
  forall reg,
    map wh_id (register_all requests reg) =
    map wh_id reg
      ++ map Z.of_nat (seq (S (List.length reg)) (List.length requests)).
Proof.
  induction requests as [| [request now] rest IH]; intros reg;
    cbn [register_all List.length seq map].
  - now rewrite app_nil_r.
  - rewrite IH. cbn [register_webhook snd].
    rewrite map_app, length_app, <- app_assoc.
    cbn [map wh_id List.length app]. f_equal.
    replace (List.length reg + 1) with (S (List.length reg)) by lia.
    f_equal. lia.
Qed.

Lemma register_all_length (requests : list (WebhookRequest * str)) :
  forall reg,
    List.length (register_all requests reg) =
    List.length reg + List.length requests.
Proof.
  induction requests as [| [request now] rest IH]; intros reg;
    cbn [register_all List.length].
  - lia.
  - rewrite IH. cbn [register_webhook snd]. rewrite length_app.
    cbn [List.length]. lia.
Qed.

Lemma NoDup_ids_from (start len : nat) :
  NoDup (map Z.of_nat (seq start len)).
Proof.
  generalize (seq_NoDup len start).
  induction (seq start len) as [| a l IH]; intros Hl; cbn [map]; constructor.
  - intros Hin. apply in_map_iff in Hin. destruct Hin as (b & Hb & Hin).
    apply Nat2Z.inj in Hb. subst b. now inversion Hl.
  - apply IH. now inversion Hl.
Qed.

(** X1: webhooks registered one after the other into an empty registry
    carry the ids 1, 2, ..., n in the order of registration; in particular
    no two of them share an id. *)
Theorem X1_registration_ids (requests : list (WebhookRequest * str)) :
  map wh_id (register_all requests []) =
    map Z.of_nat (seq 1 (List.length requests)) /\
  NoDup (map wh_id (register_all requests [])) /\
  List.length (register_all requests []) = List.length requests.
Proof.
  pose proof (register_all_ids requests []) as Hids. cbn in Hids.
  split; [exact Hids | split].
  - rewrite Hids. apply NoDup_ids_from.
  - now rewrite register_all_length.
Qed.

Lemma ids_after_filter (id : Z) (reg : list webhook) :
  map wh_id (filter (fun w => negb (wh_id w =? id)%Z) reg) =
  filter (fun x => negb (x =? id)%Z) (map wh_id reg).
Proof.
  induction reg as [| w reg IH]; [reflexivity |].
  cbn [filter map]. destruct (wh_id w =? id)%Z; cbn [negb map]; now rewrite IH.
Qed.

Lemma find_id_none (id : Z) (reg : list webhook) :
  ~ In id (map wh_id reg) ->
  find (fun w => (wh_id w =? id)%Z) reg = None.
Proof.
  intros Hout. destruct (find _ reg) as [w |] eqn:Hfind; [| reflexivity].
  apply find_some in Hfind. destruct Hfind as [Hin Heq].
  apply Z.eqb_eq in Heq. exfalso. apply Hout. rewrite <- Heq. now apply in_map.
Qed.

Lemma find_id_some (id : Z) (reg : list webhook) :
  In id (map wh_id reg) ->
  exists w, find (fun w => (wh_id w =? id)%Z) reg = Some w.
Proof.
  intros Hin. apply in_map_iff in Hin. destruct Hin as (w & Hid & Hw).
  destruct (find _ reg) as [w' |] eqn:Hfind; [eauto |].
  pose proof (find_none _ _ Hfind _ Hw) as Hno. cbn in Hno.
  rewrite Hid, Z.eqb_refl in Hno. discriminate.
Qed.

(** X2: deleting an id no webhook carries answers 404; deleting an id in
    use removes every webhook with that id and keeps the others in their
    order, so that the id is gone and a second deletion answers 404. *)
Theorem X2_delete_webhook (id : Z) (reg : list webhook) :
  (~ In id (map wh_id reg) -> delete_webhook id reg = inr 404%Z) /\
  (In id (map wh_id reg) ->
   exists reply,
     delete_webhook id reg =
       inl (reply, filter (fun w => negb (wh_id w =? id)%Z) reg) /\
     reply_success reply = true /\
     ~ In id (map wh_id (filter (fun w => negb (wh_id w =? id)%Z) reg)) /\
     (forall w,
        In w (filter (fun w => negb (wh_id w =? id)%Z) reg) <->
        In w reg /\ wh_id w <> id) /\
     delete_webhook id (filter (fun w => negb (wh_id w =? id)%Z) reg) =
       inr 404%Z).
Proof.
  assert (Hgone : ~ In id (map wh_id (filter (fun w => negb (wh_id w =? id)%Z) reg))).
  { rewrite ids_after_filter. intros Hin. apply filter_In in Hin.
    destruct Hin as [_ Hne]. now rewrite Z.eqb_refl in Hne. }
  split.
  - intros Hout. unfold delete_webhook. now rewrite (find_id_none _ _ Hout).
  - intros Hin. destruct (find_id_some _ _ Hin) as [w Hfind].
    unfold delete_webhook at 1. rewrite Hfind.
    eexists. split; [reflexivity |]. split; [reflexivity |].
    split; [exact Hgone |]. split.
    + intros w'. rewrite filter_In, negb_true_iff, Z.eqb_neq. tauto.
    + unfold delete_webhook. now rewrite (find_id_none _ _ Hgone).
Qed.

Lemma filter_keeps_all (A : Type) (f : A -> bool) (l : list A) :
  (forall x, In x l -> f x = true) -> filter f l = l.
Proof.
  induction l as [| a l IH]; intros Hall; [reflexivity |].
  cbn [filter]. rewrite (Hall a (or_introl eq_refl)). f_equal.
  apply IH. intros x Hx. apply Hall. now right.
Qed.

(** The ids 1..n with the id k taken out. *)
Lemma ids_without (n k : nat) :
  1 <= k <= n ->
  filter (fun x => negb (x =? Z.of_nat k)%Z) (map Z.of_nat (seq 1 n)) =
  map Z.of_nat (seq 1 (k - 1) ++ seq (S k) (n - k)).
Proof.
  intros Hk.
  assert (Hsplit : seq 1 n = seq 1 (k - 1) ++ k :: seq (S k) (n - k)).
  { replace n with ((k - 1) + S (n - k)) at 1 by lia.
    rewrite seq_app. cbn [seq]. now replace (1 + (k - 1)) with k by lia. }
  rewrite Hsplit, !map_app, filter_app. cbn [map filter].
  rewrite Z.eqb_refl. cbn [negb].
  rewrite !filter_keeps_all; [reflexivity | |].
  - intros x Hx. apply in_map_iff in Hx. destruct Hx as (m & <- & Hm).
    apply in_seq in Hm. apply negb_true_iff, Z.eqb_neq. lia.
  - intros x Hx. apply in_map_iff in Hx. destruct Hx as (m & <- & Hm).
    apply in_seq in Hm. apply negb_true_iff, Z.eqb_neq. lia.
Qed.

(** X3: ids are handed out by the length of the list, so they are reused:
    after n >= 2 registrations, deleting any webhook but the last and
    registering once more gives the new webhook the id n, which the last of
    the old webhooks still carries. *)
Theorem X3_id_reused_after_delete
        (requests : list (WebhookRequest * str)) (k : nat)
        (request : WebhookRequest) (now : str) :
  1 <= k < List.length requests ->
  let n := List.length requests in
  let remaining :=
    filter (fun w => negb (wh_id w =? Z.of_nat k)%Z) (register_all requests []) in
  (exists reply,
     delete_webhook (Z.of_nat k) (register_all requests []) = inl (reply, remaining)) /\
  reply_webhook_id (fst (register_webhook request now remaining)) =
    Some (Z.of_nat n) /\
  In (Z.of_nat n) (map wh_id remaining) /\
  ~ NoDup (map wh_id (snd (register_webhook request now remaining))).
Proof.
  intros Hk n remaining.
  destruct (X1_registration_ids requests) as (Hids & _ & _). fold n in Hids.
  assert (Hrem : map wh_id remaining =
                 map Z.of_nat (seq 1 (k - 1) ++ seq (S k) (n - k))).
  { unfold remaining. rewrite ids_after_filter, Hids. apply ids_without. lia. }
  assert (Hlen : List.length remaining = n - 1).
  { rewrite <- (length_map wh_id), Hrem, length_map, length_app, !length_seq. lia. }
  assert (Hin : In (Z.of_nat n) (map wh_id remaining)).
  { rewrite Hrem. apply in_map, in_or_app. right. apply in_seq. lia. }
  split; [| split; [| split]].
  - destruct (X2_delete_webhook (Z.of_nat k) (register_all requests []))
      as [_ Hdel].
    destruct Hdel as (reply & Hdel & _).
    + rewrite Hids. apply in_map, in_seq. lia.
    + now exists reply.
  - cbn [register_webhook fst reply_webhook_id wh_id]. rewrite Hlen.
    f_equal. lia.
  - exact Hin.
  - cbn [register_webhook snd]. rewrite map_app. cbn [map wh_id].
    rewrite Hlen. replace (Z.of_nat (n - 1) + 1)%Z with (Z.of_nat n) by lia.
    intros Hnodup. apply NoDup_remove_2 in Hnodup. apply Hnodup.
    rewrite app_nil_r. exact Hin.
Qed.

(** *** Job alerts *)




(** *** Splitting and trimming *)

Lemma split_on_cons (sep : char -> bool) (s : str) :
  exists field fields, split_on sep s = field :: fields.
Proof.
  induction s as [| c s IH]; cbn [split_on]; [eauto |].
  destruct (sep c); [eauto |]. destruct IH as (field & fields & ->). eauto.
Qed.

Lemma split_on_length (sep : char -> bool) (s : str) :
  List.length (split_on sep s) = S (List.length (filter sep s)).
Proof.
  induction s as [| c s IH]; cbn [split_on filter]; [reflexivity |].
  destruct (sep c); cbn [List.length]; [now rewrite IH |].
  destruct (split_on_cons sep s) as (field & fields & Hs).
  rewrite Hs in *. exact IH.
Qed.

Lemma split_on_fields (sep : char -> bool) (s : str) :
  Forall (Forall (fun c => sep c = false)) (split_on sep s).
Proof.
  induction s as [| c s IH]; cbn [split_on]; [repeat constructor |].
  destruct (sep c) eqn:Hc; [constructor; [constructor | exact IH] |].
  destruct (split_on_cons sep s) as (field & fields & Hs).
  rewrite Hs in *. inversion IH; subst. repeat constructor; assumption.
Qed.

Lemma lstrip_suffix (s : str) : exists spaces, s = spaces ++ lstrip s.
Proof.
  induction s as [| c s IH]; [now exists [] |].
  cbn [lstrip]. destruct (is_space c); [| now exists []].
  destruct IH as [spaces Hs]. exists (c :: spaces). cbn [app]. now f_equal.
Qed.

Lemma lstrip_head (s : str) (c : char) (rest : str) :
  lstrip s = c :: rest -> is_space c = false.
Proof.
  induction s as [| a s IH]; cbn [lstrip]; [discriminate |].
  destruct (is_space a) eqn:Ha; [exact IH |]. now intros [= <- _].
Qed.

Lemma lstrip_spaces (s : str) :
  Forall (fun c => is_space c = true) s -> lstrip s = [].
Proof.
  induction 1 as [| c s Hc _ IH]; [reflexivity |]. cbn [lstrip]. now rewrite Hc.
Qed.

Lemma rstrip_prefix (s : str) : exists spaces, s = rstrip s ++ spaces.
Proof.
  unfold rstrip. destruct (lstrip_suffix (rev s)) as [spaces Hs].
  exists (rev spaces). rewrite <- rev_app_distr, <- Hs. now rewrite rev_involutive.
Qed.

Lemma rstrip_last (s front : str) (c : char) :
  rstrip s = front ++ [c] -> is_space c = false.
Proof.
  unfold rstrip. intros Hs. apply (f_equal (@rev char)) in Hs.
  rewrite rev_involutive, rev_app_distr in Hs. cbn [rev app] in Hs.
  exact (lstrip_head _ Hs).
Qed.

Lemma strip_within (s : str) : exists before after, s = before ++ strip s ++ after.
Proof.
  unfold strip. destruct (lstrip_suffix s) as [before Hs].
  destruct (rstrip_prefix (lstrip s)) as [after Hl].
  exists before, after. now rewrite <- Hl.
Qed.

Lemma strip_In (s : str) (c : char) : In c (strip s) -> In c s.
Proof.
  destruct (strip_within s) as (before & after & Hs). intros Hin.
  rewrite Hs, !in_app_iff. tauto.
Qed.

Lemma strip_head (s : str) (c : char) (rest : str) :
  strip s = c :: rest -> is_space c = false.
Proof.
  unfold strip. intros Hs.
  destruct (rstrip_prefix (lstrip s)) as [spaces Hl].
  rewrite Hs in Hl. cbn [app] in Hl. exact (lstrip_head _ Hl).
Qed.

Lemma strip_last (s front : str) (c : char) :
  strip s = front ++ [c] -> is_space c = false.
Proof. unfold strip. apply rstrip_last. Qed.

Lemma strip_spaces (s : str) :
  Forall (fun c => is_space c = true) s -> strip s = [].
Proof.
  intros Hs. unfold strip. now rewrite (lstrip_spaces Hs).
Qed.

(** X5: the location filter of the GET endpoint is absent when the query
    parameter is absent or empty; otherwise it has one code per
    comma-separated field (one more than there are commas), and no code
    holds a comma or starts or ends with whitespace. *)
Theorem X5_location_list (location_codes : option str) :
  (location_codes = None \/ location_codes = Some [] ->
   location_list location_codes = None) /\
  (forall s,
     location_codes = Some s -> s <> [] ->
     exists codes,
       location_list location_codes = Some codes /\
       List.length codes =
         S (List.length (filter (fun c => char_eqb c 44%N) s)) /\
       Forall (fun code =>
                 ~ In 44%N code /\
                 (forall c rest, code = c :: rest -> is_space c = false) /\
                 (forall front c, code = front ++ [c] -> is_space c = false))
              codes).
Proof.
  split.
  - now intros [-> | ->].
  - intros s -> Hs. destruct s as [| c s]; [congruence |].
    cbn [location_list]. eexists. split; [reflexivity |]. split.
    + rewrite length_map. apply split_on_length.
    + apply Forall_map.
      pose proof (split_on_fields (fun ch => char_eqb ch 44%N) (c :: s)) as Hfields.
      unfold split_char.
      eapply Forall_impl; [| exact Hfields].
      intros field Hfield. split; [| split].
      * intros Hin. apply strip_In in Hin.
        rewrite Forall_forall in Hfield. specialize (Hfield _ Hin).
        discriminate Hfield.
      * intros ch rest. apply strip_head.
      * intros front ch. apply strip_last.
Qed.

(** *** Previews, continued *)

Lemma replace_char_In (old new c : char) (s : str) :
  In c (replace_char old new s) -> c = new \/ (c <> old /\ In c s).
Proof.
  unfold replace_char. intros Hin. apply in_map_iff in Hin.
  destruct Hin as (a & Ha & Hin).
  destruct (char_eqb a old) eqn:Hold; [now left |].
  right. subst a. split; [| exact Hin].
  intros ->. unfold char_eqb in Hold. now rewrite N.eqb_refl in Hold.
Qed.

Lemma clean_text_single_line (text : str) :
  ~ In nl (clean_text text) /\ ~ In cr (clean_text text).
Proof.
  unfold clean_text. split; intros Hin; apply strip_In in Hin;
    apply replace_char_In in Hin.
  - destruct Hin as [Heq | [_ Hin]]; [discriminate Heq |].
    apply replace_char_In in Hin.
    destruct Hin as [Heq | [Hne _]]; [discriminate Heq | now apply Hne].
  - destruct Hin as [Heq | [Hne _]]; [discriminate Heq | now apply Hne].
Qed.

Lemma firstn_In (A : Type) (n : nat) (l : list A) (a : A) :
  In a (firstn n l) -> In a l.
Proof.
  intros Hin. rewrite <- (firstn_skipn n l). apply in_or_app. now left.
Qed.

(** X6: a preview is one line: it holds no newline and no carriage return,
    it does not start with whitespace, and the preview of a text made of
    whitespace only is empty. *)
Theorem X6_preview_single_line (boundary : nat) (text : str) :
  ~ In nl (preview boundary text) /\
  ~ In cr (preview boundary text) /\
  (forall c rest, preview boundary text = c :: rest -> is_space c = false) /\
  (Forall (fun c => is_space c = true) text -> preview boundary text = []).
Proof.
  destruct (clean_text_single_line text) as [Hnl Hcr].
  unfold preview, truncate.
  destruct (boundary <? List.length (clean_text text)) eqn:Hlong.
  - split; [| split; [| split]].
    + intros Hin. apply in_app_or in Hin.
      destruct Hin as [Hin | Hin]; [now apply Hnl, (firstn_In boundary) |].
      vm_compute in Hin. intuition discriminate.
    + intros Hin. apply in_app_or in Hin.
      destruct Hin as [Hin | Hin]; [now apply Hcr, (firstn_In boundary) |].
      vm_compute in Hin. intuition discriminate.
    + intros c rest Hhead.
      destruct (clean_text text) as [| a clean] eqn:Hclean;
        [discriminate Hlong |].
      destruct boundary as [| boundary]; cbn [firstn app] in Hhead.
      * vm_compute in Hhead. now injection Hhead as <- _.
      * injection Hhead as <- _. unfold clean_text in Hclean.
        exact (strip_head _ Hclean).
    + intros Hspaces. exfalso.
      assert (Hempty : clean_text text = []).
      { unfold clean_text. apply strip_spaces. unfold replace_char.
        rewrite !Forall_map. eapply Forall_impl; [| exact Hspaces].
        intros a Ha. cbv beta.
        destruct (char_eqb a nl); [destruct (char_eqb space cr); reflexivity |].
        destruct (char_eqb a cr); [reflexivity | exact Ha]. }
      rewrite Hempty in Hlong. apply Nat.ltb_lt in Hlong. cbn in Hlong. lia.
  - split; [exact Hnl | split; [exact Hcr | split]].
    + intros c rest. unfold clean_text. apply strip_head.
    + intros Hspaces. unfold clean_text. apply strip_spaces.
      unfold replace_char. rewrite !Forall_map.
      eapply Forall_impl; [| exact Hspaces].
      intros a Ha. cbv beta.
      destruct (char_eqb a nl); [destruct (char_eqb space cr); reflexivity |].
      destruct (char_eqb a cr); [reflexivity | exact Ha].
Qed.

(** *** The keyword of a search instruction *)

Lemma keyword_after_marker_found (words : list str) (w : str) :
  keyword_after_marker words = Some w <->
  exists before marker after,
    words = before ++ marker :: w :: after /\
    is_marker marker = true /\
    Forall (fun word => is_marker word = false) before.
Proof.
  split.
  - induction words as [| word rest IH]; cbn [keyword_after_marker];
      [discriminate |].
    destruct (is_marker word) eqn:Hword.
    + destruct rest as [| next rest']; [discriminate |].
      intros [= ->]. exists [], word, rest'. auto.
    + intros Hrest. destruct (IH Hrest) as (before & marker & after & -> & Hm & Hb).
      exists (word :: before), marker, after. auto.
  - intros (before & marker & after & -> & Hm & Hb).
    induction Hb as [| word before Hword _ IH]; cbn [app keyword_after_marker].
    + now rewrite Hm.
    + now rewrite Hword.
Qed.

Lemma split_ws_words (s : str) :
  Forall (fun word => word <> [] /\ Forall (fun c => is_space c = false) word)
         (split_ws s).
Proof.
  unfold split_ws. apply Forall_forall. intros word Hin.
  apply filter_In in Hin. destruct Hin as [Hin Hne].
  split; [now destruct word |].
  pose proof (split_on_fields is_space s) as Hfields.
  rewrite Forall_forall in Hfields. now apply Hfields.
Qed.

(** X7: the search handler uses the keyword of the context when that is
    truthy and does not look at the instruction then.  Otherwise it takes
    the word that follows the first of "for", "about", "in" which has a word
    after it: a non-empty word without whitespace; and if no such word
    exists the keyword stays what the context gave. *)
Theorem X7_search_keyword (instruction : str) (context : dict) :
  let given := Py.get_or context (lit "keyword") (VStr []) in
  (Py.truthy given = true -> search_keyword instruction context = given) /\
  (Py.truthy given = false ->
   forall before marker w after,
     split_ws instruction = before ++ marker :: w :: after ->
     is_marker marker = true ->
     Forall (fun word => is_marker word = false) before ->
     search_keyword instruction context = VStr w /\
     w <> [] /\ Forall (fun c => is_space c = false) w) /\
  (Py.truthy given = false ->
   (forall before marker w after,
      split_ws instruction = before ++ marker :: w :: after ->
      is_marker marker = false) ->
   search_keyword instruction context = given).
Proof.
  intros given. unfold search_keyword. fold given.
  split; [| split].
  - now intros ->.
  - intros -> before marker w after Hwords Hm Hb. cbn [negb].
    assert (Hfound : keyword_after_marker (split_ws instruction) = Some w).
    { apply keyword_after_marker_found. exists before, marker, after. auto. }
    rewrite Hfound. split; [reflexivity |].
    pose proof (split_ws_words instruction) as Hall.
    rewrite Hwords, Forall_forall in Hall. apply Hall.
    apply in_or_app. right. right. now left.
  - intros -> Hnone. cbn [negb].
    destruct (keyword_after_marker (split_ws instruction)) as [w |] eqn:Hfound;
      [| reflexivity].
    apply keyword_after_marker_found in Hfound.
    destruct Hfound as (before & marker & after & Hwords & Hm & _).
    rewrite (Hnone _ _ _ _ Hwords) in Hm. discriminate.
Qed.

(** *** The printer and the formatter, side by side *)

Section SideBySide.

Variable py_repr : value -> str.

Lemma after_nothing (A : Type) (m : io A) : m = after_printing [] m.
Proof. now destruct m. Qed.

Lemma after_print (A : Type) (written : list str) (line : str) (k : unit -> io A) :
  after_printing written (io_bind (print line) k) =
  after_printing (written ++ [line]) (k tt).
Proof.
  unfold after_printing, io_bind, print. destruct (k tt) as [out r].
  cbn [fst snd app]. now rewrite <- app_assoc.
Qed.

Lemma after_lift_ok (A B : Type) (written : list str) (a : A) (k : A -> io B) :
  after_printing written (io_bind (io_lift (Ok a)) k) =
  after_printing written (k a).
Proof. now rewrite io_bind_lift_ok. Qed.

Lemma after_lift_raise (A B : Type) (written : list str) (e : exn) (k : A -> io B) :
  after_printing written (io_bind (io_lift (Raise e)) k) = (written, Raise e).
Proof. unfold after_printing. cbn. now rewrite app_nil_r. Qed.

Lemma after_ret (A B : Type) (written : list str) (a : A) (k : A -> io B) :
  after_printing written (io_bind (io_ret a) k) = after_printing written (k a).
Proof. unfold io_ret. apply after_lift_ok. Qed.

Lemma after_last_print (written : list str) (line : str) :
  after_printing written (print line) = (written ++ [line], Ok tt).
Proof. reflexivity. Qed.

Lemma io_bind_assoc (A B C : Type) (m : io A) (f : A -> io B) (k : B -> io C) :
  io_bind (io_bind m f) k = io_bind m (fun a => io_bind (f a) k).
Proof.
  unfold io_bind. destruct m as [out [a | e]]; [| reflexivity].
  destruct (f a) as [out' [b | e]]; [| reflexivity].
  destruct (k b) as [out'' r]. now rewrite app_assoc.
Qed.

(** Runs the printer's statements one after the other. *)
Ltac run_printer :=
  repeat first
    [ rewrite after_print
    | rewrite after_lift_ok
    | rewrite after_lift_raise
    | rewrite after_ret
    | rewrite after_last_print
    | rewrite io_bind_assoc
    | progress cbn [negb] ];
  cbv beta.

(** What the two functions read for an optional text field. *)
Lemma optional_field (job : dict) (key : str) :
  Py.truthy (Py.get_or job key (VStr [])) = Py.truthy (Py.get_or job key VNone) /\
  (Py.truthy (Py.get_or job key VNone) = true ->
   Py.getitem (VDict job) key = Ok (Py.get_or job key (VStr []))).
Proof.
  unfold Py.get_or, Py.getitem. destruct (Py.lookup key job); [auto |].
  split; [reflexivity | discriminate].
Qed.

Lemma print_job_job_info (i : nat) (job : value) :
  match job_info py_repr i job with
  | Ok lines => print_job py_repr i job = (lines ++ [[]], Ok tt)
  | Raise e => exists out, print_job py_repr i job = (out, Raise e)
  end.
Proof.
  destruct job as [| | | | | | j];
    try (cbn; eexists; reflexivity).
  unfold job_info, print_job. cbn [Py.vget_or rbind].
  rewrite (after_nothing (io_bind _ _)).
  destruct (optional_field j (lit "description")) as [Hdesc Hdesc_get].
  destruct (optional_field j (lit "requirement")) as [Hreq Hreq_get].
  run_printer.
  destruct (_extract_locations py_repr (VDict j)) as [locations | e];
    cbn [rbind]; run_printer; [| eexists; reflexivity].
  destruct (location_str locations) as [loc | e];
    cbn [rbind]; run_printer; [| eexists; reflexivity].
  rewrite Hdesc.
  destruct (Py.truthy (Py.get_or j (lit "description") VNone)) eqn:Hd.
  - rewrite (Hdesc_get eq_refl). cbn [rbind]. run_printer.
    destruct (preview_value 150 (Py.get_or j (lit "description") (VStr [])))
      as [desc_preview | e]; cbn [rbind]; run_printer; [| eexists; reflexivity].
    rewrite Hreq.
    destruct (Py.truthy (Py.get_or j (lit "requirement") VNone)) eqn:Hr.
    + rewrite (Hreq_get eq_refl). cbn [rbind]. run_printer.
      destruct (preview_value 100 (Py.get_or j (lit "requirement") (VStr [])))
        as [req_preview | e]; cbn [rbind]; run_printer; [| eexists; reflexivity].
      cbn [app]. reflexivity.
    + cbn [rbind]. run_printer. cbn [app]. reflexivity.
  - cbn [rbind]. run_printer. rewrite Hreq.
    destruct (Py.truthy (Py.get_or j (lit "requirement") VNone)) eqn:Hr.
    + rewrite (Hreq_get eq_refl). cbn [rbind]. run_printer.
      destruct (preview_value 100 (Py.get_or j (lit "requirement") (VStr [])))
        as [req_preview | e]; cbn [rbind]; run_printer; [| eexists; reflexivity].
      cbn [app]. reflexivity.
    + cbn [rbind]. run_printer. cbn [app]. reflexivity.
Qed.

Lemma format_jobs_job_infos (jobs : list value) :
  forall i,
    format_jobs py_repr i jobs =
    (per_job <- job_infos py_repr i jobs ;; Ok (map (join [nl]) per_job)).
Proof.
  induction jobs as [| job rest IH]; intros i; cbn [format_jobs job_infos rbind];
    [reflexivity |].
  unfold format_job. destruct (job_info py_repr i job) as [lines | e];
    cbn [rbind]; [| reflexivity].
  rewrite IH. now destruct (job_infos py_repr (S i) rest).
Qed.

Lemma print_jobs_job_infos (jobs : list value) :
  forall i,
    match job_infos py_repr i jobs with
    | Ok per_job =>
      print_jobs py_repr i jobs =
      (List.concat (map (fun lines => lines ++ [[]]) per_job), Ok tt)
    | Raise e => exists out, print_jobs py_repr i jobs = (out, Raise e)
    end.
Proof.
  induction jobs as [| job rest IH]; intros i; cbn [job_infos print_jobs];
    [reflexivity |].
  pose proof (print_job_job_info i job) as Hjob.
  destruct (job_info py_repr i job) as [lines | e]; cbn [rbind].
  - rewrite Hjob. specialize (IH (S i)).
    destruct (job_infos py_repr (S i) rest) as [more | e]; cbn [rbind].
    + rewrite IH. cbn [io_bind map List.concat]. reflexivity.
    + destruct IH as [out ->]. cbn [io_bind]. eexists. reflexivity.
  - destruct Hjob as [out ->]. cbn [io_bind]. eexists. reflexivity.
Qed.

Lemma job_infos_length (jobs : list value) :
  forall i per_job,
    job_infos py_repr i jobs = Ok per_job ->
    List.length per_job = List.length jobs.
Proof.
  induction jobs as [| job rest IH]; intros i per_job; cbn [job_infos].
  - now intros [= <-].
  - destruct (job_info py_repr i job); cbn [rbind]; [| discriminate].
    destruct (job_infos py_repr (S i) rest) eqn:Hrest; cbn [rbind];
      [| discriminate].
    intros [= <-]. cbn [List.length]. f_equal. eapply IH. eassumption.
Qed.

(** The rounds are numbered from [i] on, in the order of the records. *)
Lemma job_infos_nth (jobs : list value) :
  forall i per_job k job,
    job_infos py_repr i jobs = Ok per_job ->
    nth_error jobs k = Some job ->
    exists lines,
      nth_error per_job k = Some lines /\
      job_info py_repr (i + k) job = Ok lines.
Proof.
  induction jobs as [| first rest IH]; intros i per_job k job; cbn [job_infos].
  - destruct k; discriminate.
  - destruct (job_info py_repr i first) as [lines |] eqn:Hfirst; cbn [rbind];
      [| discriminate].
    destruct (job_infos py_repr (S i) rest) as [more |] eqn:Hrest; cbn [rbind];
      [| discriminate].
    intros [= <-]. destruct k as [| k]; cbn [nth_error].
    + intros [= <-]. exists lines. now rewrite Nat.add_0_r.
    + intros Hk. destruct (IH (S i) more k job Hrest Hk) as (l & Hl & Hinfo).
      exists l. split; [exact Hl |]. now rewrite <- Nat.add_succ_comm.
Qed.

Lemma len_iter_length (c : value) (n : nat) (items : list value) :
  Py.len c = Ok n -> Py.iter c = Ok items -> List.length items = n.
Proof.
  destruct c; cbn [Py.len Py.iter]; try discriminate;
    intros [= <-] [= <-]; now rewrite ?length_map.
Qed.

(** The three ways a call of the two functions on one response ends. *)
Lemma printer_formatter_runs (data : dict) :
  (exists line report,
      format_job_results py_repr data = Ok report /\
      print_job_results py_repr data = ([line], Ok tt) /\
      is_failure_report line = true /\
      is_failure_report report = true) \/
  (exists e out,
      format_job_results py_repr data = Raise e /\
      print_job_results py_repr data = (out, Raise e)) \/
  (exists data_section job_posts jobs per_job,
      Py.lookup (lit "data") data = Some (VDict data_section) /\
      Py.lookup (lit "job_post_list") data_section = Some job_posts /\
      Py.iter job_posts = Ok jobs /\
      job_infos py_repr 1 jobs = Ok per_job /\
      let shown := List.length jobs in
      let total := reported_total data_section shown in
      format_job_results py_repr data =
        Ok (match jobs with
            | [] => lit "📭 No job postings found (Total: "
                      ++ py_str py_repr total ++ lit ")"
            | _ :: _ =>
              join [nl; nl]
                   (found_header py_repr total shown :: map (join [nl]) per_job)
            end) /\
      print_job_results py_repr data =
        (found_line py_repr total shown
           :: match jobs with
              | [] => [none_found_line]
              | _ :: _ =>
                repeat_char 61%N 80
                  :: List.concat (map (fun lines => lines ++ [[]]) per_job)
              end,
         Ok tt)).
Proof.
  unfold format_job_results, print_job_results.
  rewrite (after_nothing (if Py.truthy _ then _ else _)).
  destruct (Py.truthy (Py.get data (lit "error"))) eqn:Herr.
  { left. rewrite (getitem_truthy _ _ Herr). cbn [rbind]. run_printer.
    do 2 eexists. repeat split. }
  destruct (Py.ne_zero (Py.get data (lit "code"))) eqn:Hcode.
  { left. run_printer. do 2 eexists. repeat split. }
  destruct (Py.has_key data (lit "data")) eqn:Hdata; cbn [negb rbind].
  2:{ left. run_printer. do 2 eexists. repeat split. }
  destruct (has_key_true _ _ Hdata) as [section Hsection].
  rewrite (getitem_of_lookup _ _ Hsection). cbn [rbind]. run_printer.
  destruct (Py.contains (lit "job_post_list") section) as [[|] | e] eqn:Hin;
    cbn [rbind negb]; run_printer.
  3:{ right. left. do 2 eexists. split; reflexivity. }
  2:{ left. do 2 eexists. repeat split. }
  destruct (Py.getitem section (lit "job_post_list")) as [job_posts | e] eqn:Hposts;
    cbn [rbind]; run_printer.
  2:{ right. left. do 2 eexists. split; reflexivity. }
  destruct section as [| | | | | | ds]; try discriminate Hposts.
  assert (Hlookup : Py.lookup (lit "job_post_list") ds = Some job_posts).
  { unfold Py.getitem in Hposts.
    destruct (Py.lookup (lit "job_post_list") ds); [congruence | discriminate]. }
  destruct (Py.len job_posts) as [shown | e] eqn:Hlen; cbn [rbind]; run_printer.
  2:{ right. left. do 2 eexists. split; reflexivity. }
  cbn [Py.vget_or rbind]. run_printer. rewrite reported_total_get_or.
  destruct (len_iter _ Hlen) as [jobs Hjobs].
  pose proof (len_iter_length _ Hlen Hjobs) as Hshown. subst shown.
  rewrite Hjobs. cbn [rbind].
  destruct jobs as [| job jobs']; cbn [List.length Nat.eqb].
  { right. right. exists ds, job_posts, [], []. run_printer.
    repeat split; assumption. }
  run_printer. rewrite format_jobs_job_infos.
  pose proof (print_jobs_job_infos (job :: jobs') 1) as Hprint.
  destruct (job_infos py_repr 1 (job :: jobs')) as [per_job | e] eqn:Hinfos;
    cbn [rbind].
  - right. right. exists ds, job_posts, (job :: jobs'), per_job.
    rewrite Hprint. unfold after_printing. cbn [fst snd app List.length].
    repeat split; assumption.
  - right. left. destruct Hprint as [out ->]. unfold after_printing.
    cbn [fst snd]. do 2 eexists. split; reflexivity.
Qed.

(** X8: for one record the printer writes exactly the lines the formatter
    joins into the record's entry, followed by an empty line; and where the
    formatter raises, the printer raises the same exception. *)
Theorem X8_same_lines_per_record (i : nat) (job : value) :
  (forall entry,
     format_job py_repr i job = Ok entry ->
     exists lines,
       entry = join [nl] lines /\
       print_job py_repr i job = (lines ++ [[]], Ok tt)) /\
  (forall e,
     format_job py_repr i job = Raise e ->
     exists out, print_job py_repr i job = (out, Raise e)).
Proof.
  pose proof (print_job_job_info i job) as Hjob. unfold format_job.
  destruct (job_info py_repr i job) as [lines | e']; cbn [rbind]; split.
  - intros entry [= <-]. now exists lines.
  - discriminate.
  - discriminate.
  - intros e [= <-]. exact Hjob.
Qed.

(** X9: on every response the printer and the formatter end alike: the
    printer returns normally exactly when the formatter returns a report,
    both raise the same exception otherwise, and the first line written is
    a failure line exactly when the report is a failure report. *)
Theorem X9_same_outcome (data : dict) :
  snd (print_job_results py_repr data) =
    (report <- format_job_results py_repr data ;; Ok tt) /\
  (forall report,
     format_job_results py_repr data = Ok report ->
     exists line rest,
       fst (print_job_results py_repr data) = line :: rest /\
       is_failure_report line = is_failure_report report).
Proof.
  destruct (printer_formatter_runs data)
    as [(line & report & Hf & Hp & Hline & Hreport)
       | [(e & out & Hf & Hp)
         | (ds & job_posts & jobs & per_job & _ & _ & _ & _ & Hf & Hp)]];
    rewrite Hf, Hp; cbn [rbind fst snd]; (split; [reflexivity |]).
  - intros r [= <-]. exists line, []. split; [reflexivity | congruence].
  - discriminate.
  - intros r [= <-]. do 2 eexists. split; [reflexivity |].
    destruct jobs as [| job jobs'].
    + reflexivity.
    + destruct per_job; reflexivity.
Qed.

(** X10: a successful listing has one entry per record, in the order of
    the records and numbered from 1: the formatter's report is the header
    and the entries joined by empty lines, and the printer writes the same
    header and, for each record, the lines of its entry and an empty
    line. *)
Theorem X10_listing_entries (data : dict) (report : str) :
  format_job_results py_repr data = Ok report ->
  is_failure_report report = false ->
  exists data_section job_posts jobs per_job,
    Py.lookup (lit "data") data = Some (VDict data_section) /\
    Py.lookup (lit "job_post_list") data_section = Some job_posts /\
    Py.iter job_posts = Ok jobs /\
    List.length per_job = List.length jobs /\
    (forall k job,
       nth_error jobs k = Some job ->
       exists lines,
         nth_error per_job k = Some lines /\
         job_info py_repr (S k) job = Ok lines) /\
    let shown := List.length jobs in
    let total := reported_total data_section shown in
    report =
      match jobs with
      | [] => lit "📭 No job postings found (Total: "
                ++ py_str py_repr total ++ lit ")"
      | _ :: _ =>
        join [nl; nl]
             (found_header py_repr total shown :: map (join [nl]) per_job)
      end /\
    print_job_results py_repr data =
      (found_line py_repr total shown
         :: match jobs with
            | [] => [none_found_line]
            | _ :: _ =>
              repeat_char 61%N 80
                :: List.concat (map (fun lines => lines ++ [[]]) per_job)
            end,
       Ok tt).
Proof.
  intros Hrun Hok.
  destruct (printer_formatter_runs data)
    as [(line & report' & Hf & _ & _ & Hreport)
       | [(e & out & Hf & _)
         | (ds & job_posts & jobs & per_job & Hd & Hl & Hi & Hinfos & Hf & Hp)]].
  - rewrite Hf in Hrun. apply Ok_inv in Hrun. subst report'. congruence.
  - rewrite Hf in Hrun. discriminate.
  - exists ds, job_posts, jobs, per_job.
    repeat (split; [assumption |]).
    split; [exact (job_infos_length _ _ Hinfos) |].
    split.
    { intros k job Hk.
      exact (job_infos_nth _ 1 k Hinfos Hk). }
    cbv zeta in *. rewrite Hf in Hrun. apply Ok_inv in Hrun.
    split; [exact Hrun | exact Hp].
Qed.

Lemma job_infos_abort (jobs : list value) :
  forall i k bad e,
    nth_error jobs k = Some bad ->
    job_info py_repr (i + k) bad = Raise e ->
    exists e', job_infos py_repr i jobs = Raise e'.
Proof.
  induction jobs as [| first rest IH]; intros i k bad e; cbn [job_infos].
  - destruct k; discriminate.
  - destruct k as [| k]; cbn [nth_error].
    + intros [= <-]. rewrite Nat.add_0_r. intros ->. cbn [rbind]. eauto.
    + intros Hk Hbad.
      destruct (job_info py_repr i first); cbn [rbind]; [| eauto].
      rewrite <- Nat.add_succ_comm in Hbad.
      destruct (IH (S i) k bad e Hk Hbad) as [e' ->]. cbn [rbind]. eauto.
Qed.

(** X11: one record that cannot be rendered costs the whole listing: if
    the formatter's round for some record of the list raises, the call
    raises and returns no report for the other records either; the printer
    ends with the same exception. *)
Theorem X11_one_bad_record_aborts
        (data data_section : dict) (jobs : list value)
        (k : nat) (bad : value) (e : exn) :
  no_error_marker data ->
  code_is_zero data ->
  Py.lookup (lit "data") data = Some (VDict data_section) ->
  Py.lookup (lit "job_post_list") data_section = Some (VList jobs) ->
  nth_error jobs k = Some bad ->
  format_job py_repr (S k) bad = Raise e ->
  exists e' out,
    format_job_results py_repr data = Raise e' /\
    print_job_results py_repr data = (out, Raise e').
Proof.
  intros Herr Hcode Hdata Hlist Hk Hbad.
  assert (Hinfo : job_info py_repr (1 + k) bad = Raise e).
  { unfold format_job in Hbad.
    change (1 + k) with (S k).
    destruct (job_info py_repr (S k) bad); cbn [rbind] in Hbad;
      [discriminate | now injection Hbad as ->]. }
  destruct (job_infos_abort jobs 1 k Hk Hinfo) as [e' Habort].
  destruct (printer_formatter_runs data)
    as [(line & report & Hf & _ & _ & Hreport)
       | [(e0 & out & Hf & Hp)
         | (ds & job_posts & jobs' & per_job & Hd & Hl & Hi & Hinfos & _)]].
  - exfalso. revert Hf Hreport. unfold format_job_results.
    red in Herr. rewrite Herr, (code_is_zero_ne_zero Hcode).
    rewrite (has_key_of_lookup _ _ Hdata), (getitem_of_lookup _ _ Hdata).
    cbn [negb rbind Py.contains].
    rewrite (has_key_of_lookup _ _ Hlist), (getitem_of_lookup _ _ Hlist).
    cbn [negb rbind Py.len Py.vget_or Py.iter].
    rewrite format_jobs_job_infos, Habort.
    destruct jobs as [| job jobs'']; [destruct k; discriminate Hk |].
    cbn [List.length Nat.eqb rbind]. discriminate.
  - eauto.
  - exfalso. rewrite Hdata in Hd. injection Hd as <-.
    rewrite Hlist in Hl. injection Hl as <-. cbn [Py.iter] in Hi.
    injection Hi as <-. congruence.
Qed.

Lemma lookup_nonempty (d : dict) (k : str) (v : value) :
  Py.lookup k d = Some v -> Py.truthy (VDict d) = true.
Proof. destruct d; [discriminate | reflexivity]. Qed.

(** X12: a location whose [name] is not a string, such as
    [{"name": null}], is extracted as it is; joining the locations then
    raises [TypeError] in the formatter and in the printer, which has
    written the title and code lines by then. *)
Theorem X12_location_name_not_a_string
        (i : nat) (job city : dict) (name : value) :
  Py.lookup (lit "city_info") job = Some (VDict city) ->
  Py.lookup (lit "name") city = Some name ->
  (forall s, name <> VStr s) ->
  _extract_locations py_repr (VDict job) = Ok [name] /\
  format_job py_repr i (VDict job) = Raise TypeError /\
  print_job py_repr i (VDict job) =
    ([py_str py_repr (VInt (Z.of_nat i)) ++ lit ". "
        ++ py_str py_repr (Py.get_or job (lit "title") (VStr (lit "N/A")));
      lit "   🆔 Job Code: "
        ++ py_str py_repr (Py.get_or job (lit "code") (VStr (lit "N/A")))],
     Raise TypeError).
Proof.
  intros Hcity Hname Hnot.
  assert (Hloc : _extract_locations py_repr (VDict job) = Ok [name]).
  { rewrite extract_locations_city_info.
    - rewrite (get_of_lookup _ _ Hcity). cbn [location_of].
      now rewrite (get_or_of_lookup _ _ _ Hname).
    - rewrite (get_of_lookup _ _ Hcity). exact (lookup_nonempty _ _ Hname). }
  assert (Hjoin : location_str [name] = Raise TypeError).
  { cbn [location_str Py.join_values mapM rbind].
    destruct name; try reflexivity. now destruct (Hnot s). }
  split; [exact Hloc | split].
  - unfold format_job, job_info. cbn [Py.vget_or rbind].
    rewrite Hloc. cbn [rbind]. now rewrite Hjoin.
  - unfold print_job. cbn [Py.vget_or].
    rewrite (after_nothing (io_bind _ _)). run_printer.
    rewrite Hloc. run_printer. rewrite Hjoin. run_printer. reflexivity.
Qed.

End SideBySide.

(** *** The REST facade, the agent and the trending endpoint *)

Section Facades.

Variable py_repr : value -> str.
Variable search_jobs : value -> value -> value.
Variable coerce_int : value -> option Z.
Variable coerce_str : value -> option str.

Lemma mapM_Forall2 (A B : Type) (f : A -> result B) (l : list A) :
  forall bs, mapM f l = Ok bs -> Forall2 (fun a b => f a = Ok b) l bs.
Proof.
  induction l as [| a l IH]; intros bs; cbn [mapM].
  - intros [= <-]. constructor.
  - destruct (f a) as [b |] eqn:Hb; cbn [rbind]; [| intros Hno; discriminate Hno].
    destruct (mapM f l) as [bs' |]; cbn [rbind]; [| intros Hno; discriminate Hno].
    intros [= <-]. constructor; [exact Hb | now apply IH].
Qed.

Lemma mapM_length (A B : Type) (f : A -> result B) (l : list A) (bs : list B) :
  mapM f l = Ok bs -> List.length bs = List.length l.
Proof.
  intros Hmap. apply mapM_Forall2 in Hmap.
  symmetry. exact (Forall2_length Hmap).
Qed.

Lemma formatted_job_fields (record formatted : value) :
  formatted_job py_repr record = Ok formatted ->
  facade_job_of py_repr record formatted.
Proof.
  unfold formatted_job, facade_job_of.
  destruct record as [| | | | | | job]; cbn [Py.vget_or rbind];
    try (intros Hno; discriminate Hno).
  destruct (excerpt (Py.get_or job (lit "description") (VStr [])))
    as [description |] eqn:Hdesc; cbn [rbind]; [| intros Hno; discriminate Hno].
  destruct (excerpt (Py.get_or job (lit "requirement") (VStr [])))
    as [requirements |] eqn:Hreq; cbn [rbind]; [| intros Hno; discriminate Hno].
  destruct (_extract_locations py_repr (VDict job)) as [locations |] eqn:Hloc;
    cbn [rbind]; [| intros Hno; discriminate Hno].
  intros Hf. apply Ok_inv in Hf. subst formatted.
  exists job, description, requirements, locations.
  repeat split; assumption.
Qed.

(** X13: when the REST facade answers [success=True], [jobs] holds one
    formatted job per record of the list, in the order of the records;
    each carries the record's detail URL and its locations unjoined, and
    as description the first 200 characters of the record's description
    followed by "...", whether or not anything was cut. *)
Theorem X13_facade_jobs (results : dict) (response : JobSearchResponse) :
  search_jobs_internal py_repr coerce_int coerce_str results = Returns response ->
  success response = true ->
  (exists data_section records,
     Py.get_or results (lit "data") (VDict []) = VDict data_section /\
     Py.iter (Py.get_or data_section (lit "job_post_list") (VList [])) = Ok records /\
     List.length (jobs response) = List.length records /\
     Forall2 (facade_job_of py_repr) records (jobs response)) /\
  (forall s,
     s <> [] ->
     excerpt (VStr s) = Ok (VStr (firstn 200 s ++ lit "...")) /\
     (List.length s <= 200 -> excerpt (VStr s) = Ok (VStr (s ++ lit "...")))) /\
  excerpt (VStr []) = Ok (VStr []).
Proof.
  intros Hrun Hsuccess. split; [| split].
  - revert Hrun. unfold search_jobs_internal, search_jobs_try.
    destruct (Py.truthy (Py.get results (lit "error"))) eqn:Herr.
    { rewrite (getitem_truthy _ _ Herr). cbn [rbind]. unfold validated.
      cbn [given_success].
      destruct (int_field _ _); [| intros Hno; discriminate Hno].
      destruct (optional_str_field _ _); [| intros Hno; discriminate Hno].
      intros Hrun. apply Returns_inv in Hrun. subst. discriminate Hsuccess. }
    destruct (Py.ne_zero (Py.get results (lit "code"))) eqn:Hcode.
    { unfold validated. cbn [given_success].
      destruct (int_field _ _); [| intros Hno; discriminate Hno].
      destruct (optional_str_field _ _); [| intros Hno; discriminate Hno].
      intros Hrun. apply Returns_inv in Hrun. subst. discriminate Hsuccess. }
    destruct (Py.get_or results (lit "data") (VDict [])) as [| | | | | | ds];
      cbn [Py.vget_or rbind]; try (intros Hno; discriminate Hno).
    destruct (Py.len _) as [shown |]; cbn [rbind]; [| intros Hno; discriminate Hno].
    destruct (Py.iter _) as [records |] eqn:Hiter; cbn [rbind];
      [| intros Hno; discriminate Hno].
    destruct (mapM _ records) as [formatted |] eqn:Hmap; cbn [rbind];
      [| discriminate].
    unfold validated.
    cbn [given_total_count given_message given_success given_jobs
         optional_str_field].
    destruct (int_field _ _); [| intros Hno; discriminate Hno].
    intros Hrun. apply Returns_inv in Hrun. subst response. cbn [jobs].
    exists ds, records.
    split; [reflexivity | split; [exact Hiter | split]].
    + exact (mapM_length _ _ Hmap).
    + apply mapM_Forall2 in Hmap.
      eapply Forall2_impl; [| exact Hmap].
      intros record fj. apply formatted_job_fields.
  - intros s Hs. destruct s as [| c s]; [congruence |].
    split; [reflexivity |].
    intros Hshort. unfold excerpt. cbn [Py.truthy].
    now rewrite firstn_all2.
  - reflexivity.
Qed.

Lemma strings_joined (sep : str) (items : list value) (joined : str) :
  Py.join_values sep items = Ok joined ->
  exists names, items = map VStr names /\ joined = join sep names.
Proof.
  unfold Py.join_values.
  destruct (mapM _ items) as [parts |] eqn:Hparts; cbn [rbind];
    [| intros Hno; discriminate Hno].
  intros Hj. apply Ok_inv in Hj. subst joined. exists parts.
  split; [| reflexivity].
  apply mapM_Forall2 in Hparts.
  induction Hparts as [| item part items parts Hitem _ IH]; [reflexivity |].
  cbn [map]. rewrite <- IH.
  destruct item; try discriminate Hitem. now injection Hitem as ->.
Qed.

(** X16: an entry of the formatter has five to seven lines: the number
    and title, the code, the locations, the type and the detail URL, then
    the previews of the description and of the requirements where there
    are any.  The locations of a rendered record are all strings; the line
    shows them joined by ", ", and "N/A" when there is none. *)
Theorem X16_entry_lines (i : nat) (job : dict) (lines : list str) :
  job_info py_repr i (VDict job) = Ok lines ->
  exists locations shown_locations optional,
    _extract_locations py_repr (VDict job) = Ok locations /\
    ((locations = [] /\ shown_locations = lit "N/A") \/
     (exists names,
        names <> [] /\ locations = map VStr names /\
        shown_locations = join (lit ", ") names)) /\
    lines =
      [py_str py_repr (VInt (Z.of_nat i)) ++ lit ". "
         ++ py_str py_repr (Py.get_or job (lit "title") (VStr (lit "N/A")));
       lit "   🆔 Job Code: "
         ++ py_str py_repr (Py.get_or job (lit "code") (VStr (lit "N/A")));
       lit "   📍 Location: " ++ shown_locations;
       lit "   💼 Type: "
         ++ py_str py_repr (Py.get_or job (lit "recruit_type") (VStr (lit "N/A")));
       lit "   🔗 URL: "
         ++ detail_url py_repr (Py.get_or job (lit "id") (VStr []))]
      ++ optional /\
    List.length optional <= 2 /\
    5 <= List.length lines <= 7.
Proof.
  unfold job_info. cbn [Py.vget_or rbind].
  destruct (_extract_locations py_repr (VDict job)) as [locations |] eqn:Hloc;
    cbn [rbind]; [| intros Hno; discriminate Hno].
  destruct (location_str locations) as [loc |] eqn:Hstr; cbn [rbind];
    [| intros Hno; discriminate Hno].
  intros Hrun.
  assert (Hshown :
            (locations = [] /\ loc = lit "N/A") \/
            (exists names,
               names <> [] /\ locations = map VStr names /\
               loc = join (lit ", ") names)).
  { destruct locations as [| first rest]; cbn [location_str] in Hstr.
    - left. apply Ok_inv in Hstr. now subst loc.
    - right. destruct (strings_joined _ _ Hstr) as (names & Hnames & Hjoin).
      exists names. repeat split; try assumption.
      intros ->. discriminate Hnames. }
  exists locations, loc.
  destruct (Py.truthy (Py.get_or job (lit "description") VNone)).
  - destruct (Py.getitem (VDict job) (lit "description")) as [d |];
      cbn [rbind] in Hrun; [| discriminate Hrun].
    destruct (preview_value 150 d) as [shown_d |]; cbn [rbind] in Hrun;
      [| discriminate Hrun].
    destruct (Py.truthy (Py.get_or job (lit "requirement") VNone)).
    + destruct (Py.getitem (VDict job) (lit "requirement")) as [r |];
        cbn [rbind] in Hrun; [| discriminate Hrun].
      destruct (preview_value 100 r) as [shown_r |]; cbn [rbind] in Hrun;
        [| discriminate Hrun].
      apply Ok_inv in Hrun. subst lines.
      exists [lit "   📝 Description: " ++ shown_d;
              lit "   📋 Requirements: " ++ shown_r].
      cbn [app List.length]. repeat split; try assumption; lia.
    + apply Ok_inv in Hrun. subst lines.
      exists [lit "   📝 Description: " ++ shown_d].
      cbn [app List.length]. repeat split; try assumption; lia.
  - cbn [rbind] in Hrun.
    destruct (Py.truthy (Py.get_or job (lit "requirement") VNone)).
    + destruct (Py.getitem (VDict job) (lit "requirement")) as [r |];
        cbn [rbind] in Hrun; [| discriminate Hrun].
      destruct (preview_value 100 r) as [shown_r |]; cbn [rbind] in Hrun;
        [| discriminate Hrun].
      apply Ok_inv in Hrun. subst lines.
      exists [lit "   📋 Requirements: " ++ shown_r].
      cbn [app List.length]. repeat split; try assumption; lia.
    + apply Ok_inv in Hrun. subst lines. exists [].
      cbn [app List.length]. repeat split; try assumption; lia.
Qed.

(** X14: the agent's search handler does not look at [code].  A response
    with a truthy [error] makes it raise [Exception] with that error; any
    other response without [data] - an API error with its [code] and
    [message] included - gives a search result for the keyword with no
    jobs and a total of 0, where the formatter reports a failure. *)
Theorem X14_agent_search_ignores_code
        (instruction : str) (context results : dict) (now : str) :
  search_jobs (search_keyword instruction context) (search_limit context)
    = VDict results ->
  (Py.truthy (Py.get results (lit "error")) = true ->
   _handle_job_search py_repr search_jobs instruction context now =
     inr (Exception (Py.get results (lit "error")))) /\
  (Py.truthy (Py.get results (lit "error")) = false ->
   Py.lookup (lit "data") results = None ->
   _handle_job_search py_repr search_jobs instruction context now =
     inl (VDict [(lit "type", VStr (lit "job_search_results"));
                 (lit "content",
                  VDict [(lit "query", search_keyword instruction context);
                         (lit "total_count", VInt 0);
                         (lit "jobs", VList []);
                         (lit "search_timestamp", VStr now)]);
                 (lit "format", VStr (lit "application/json"))]) /\
   exists report,
     format_job_results py_repr results = Ok report /\
     is_failure_report report = true).
Proof.
  intros Hcall. unfold _handle_job_search. rewrite Hcall.
  unfold job_search_artifact. cbn [Py.vget_or].
  fold (Py.get results (lit "error")). split.
  - intros Herr. now rewrite Herr, (getitem_truthy _ _ Herr).
  - intros Herr Hdata. rewrite Herr. split.
    + rewrite (get_or_absent _ _ _ Hdata). reflexivity.
    + unfold format_job_results. rewrite Herr.
      destruct (Py.ne_zero (Py.get results (lit "code"))).
      * eexists. split; reflexivity.
      * assert (Hkey : Py.has_key results (lit "data") = false)
          by now apply has_key_false.
        rewrite Hkey. cbn [negb rbind]. eexists. split; reflexivity.
Qed.





End Facades.

(** ** The further properties at sample inputs *)

Lemma X2_witness :
  In 2%Z (map wh_id (register_all requests_three [])) /\
  exists reply,
    delete_webhook 2 (register_all requests_three []) =
      inl (reply,
           filter (fun w => negb (wh_id w =? 2)%Z)
                  (register_all requests_three [])) /\
    delete_webhook 2
      (filter (fun w => negb (wh_id w =? 2)%Z) (register_all requests_three []))
    = inr 404%Z.
Proof.
  assert (Hin : In 2%Z (map wh_id (register_all requests_three [])))
    by (vm_compute; tauto).
  split; [exact Hin |].
  destruct (X2_delete_webhook 2 (register_all requests_three [])) as [_ Hdel].
  destruct (Hdel Hin) as (reply & Hrun & _ & _ & _ & Hagain).
  exists reply. split; assumption.
Defined.

Lemma X3_witness :
  1 <= 1 < List.length requests_three /\
  reply_webhook_id
    (fst (register_webhook request_ai (lit "t4")
            (filter (fun w => negb (wh_id w =? Z.of_nat 1)%Z)
                    (register_all requests_three [])))) = Some 3%Z /\
  In 3%Z (map wh_id (filter (fun w => negb (wh_id w =? Z.of_nat 1)%Z)
                            (register_all requests_three []))).
Proof.
  assert (Hk : 1 <= 1 < List.length requests_three) by (vm_compute; lia).
  split; [exact Hk |].
  destruct (X3_id_reused_after_delete requests_three request_ai (lit "t4") Hk)
    as (_ & Hid & Hin & _).
  split; [exact Hid | exact Hin].
Defined.

Lemma X5_witness :
  Some (lit "CN_110000, CN_440300") = Some (lit "CN_110000, CN_440300") /\
  lit "CN_110000, CN_440300" <> [] /\
  exists codes,
    location_list (Some (lit "CN_110000, CN_440300")) = Some codes /\
    List.length codes =
      S (List.length (filter (fun c => char_eqb c 44%N)
                             (lit "CN_110000, CN_440300"))).
Proof.
  assert (Hne : lit "CN_110000, CN_440300" <> []) by (vm_compute; discriminate).
  split; [reflexivity | split; [exact Hne |]].
  destruct (X5_location_list (Some (lit "CN_110000, CN_440300"))) as [_ Hsome].
  destruct (Hsome _ eq_refl Hne) as (codes & Hcodes & Hlen & _).
  exists codes. split; assumption.
Defined.

Lemma X6_witness :
  Forall (fun c => is_space c = true) (lit "  ") /\
  preview 150 (lit "  ") = [].
Proof.
  assert (Hspaces : Forall (fun c => is_space c = true) (lit "  "))
    by (vm_compute; repeat constructor).
  split; [exact Hspaces |].
  destruct (X6_preview_single_line 150 (lit "  ")) as (_ & _ & _ & Hempty).
  exact (Hempty Hspaces).
Defined.

Lemma X7_witness :
  Py.truthy (Py.get_or [] (lit "keyword") (VStr [])) = false /\
  split_ws (lit "find jobs for python in beijing") =
    [lit "find"; lit "jobs"] ++ lit "for" :: lit "python" :: [lit "in"; lit "beijing"] /\
  search_keyword (lit "find jobs for python in beijing") [] = VStr (lit "python").
Proof.
  assert (Hgiven : Py.truthy (Py.get_or [] (lit "keyword") (VStr [])) = false)
    by reflexivity.
  assert (Hwords : split_ws (lit "find jobs for python in beijing") =
                   [lit "find"; lit "jobs"]
                     ++ lit "for" :: lit "python" :: [lit "in"; lit "beijing"])
    by (vm_compute; reflexivity).
  split; [exact Hgiven | split; [exact Hwords |]].
  destruct (X7_search_keyword (lit "find jobs for python in beijing") [])
    as (_ & Hfound & _).
  destruct (Hfound Hgiven _ _ _ _ Hwords) as [Hkw _].
  - vm_compute. reflexivity.
  - vm_compute. repeat constructor.
  - exact Hkw.
Defined.

Lemma X8_witness :
  format_job repr_any 1 (VDict job_no_city) =
    Ok (join [nl] [lit "1. Engineer"; lit "   🆔 Job Code: N/A";
                   lit "   📍 Location: N/A"; lit "   💼 Type: N/A";
                   lit "   🔗 URL: https://xiaomi.jobs.f.mioffice.cn/index/position//detail"]) /\
  exists lines,
    join [nl] [lit "1. Engineer"; lit "   🆔 Job Code: N/A";
               lit "   📍 Location: N/A"; lit "   💼 Type: N/A";
               lit "   🔗 URL: https://xiaomi.jobs.f.mioffice.cn/index/position//detail"]
      = join [nl] lines /\
    print_job repr_any 1 (VDict job_no_city) = (lines ++ [[]], Ok tt).
Proof.
  assert (Hrun : format_job repr_any 1 (VDict job_no_city) =
    Ok (join [nl] [lit "1. Engineer"; lit "   🆔 Job Code: N/A";
                   lit "   📍 Location: N/A"; lit "   💼 Type: N/A";
                   lit "   🔗 URL: https://xiaomi.jobs.f.mioffice.cn/index/position//detail"]))
    by (vm_compute; reflexivity).
  split; [exact Hrun |].
  destruct (X8_same_lines_per_record repr_any 1 (VDict job_no_city)) as [Hok _].
  exact (Hok _ Hrun).
Defined.

Lemma X9_witness :
  format_job_results repr_any resp_code0 = Ok no_job_data /\
  exists line rest,
    fst (print_job_results repr_any resp_code0) = line :: rest /\
    is_failure_report line = is_failure_report no_job_data.
Proof.
  assert (Hrun : format_job_results repr_any resp_code0 = Ok no_job_data)
    by (vm_compute; reflexivity).
  split; [exact Hrun |].
  destruct (X9_same_outcome repr_any resp_code0) as [_ Hline].
  exact (Hline _ Hrun).
Defined.

Lemma X10_witness :
  exists report,
    format_job_results repr_any resp_one_job = Ok report /\
    is_failure_report report = false /\
    exists (jobs : list value) (per_job : list (list str)),
      List.length per_job = List.length jobs /\
      print_job_results repr_any resp_one_job =
        (found_line repr_any
           (reported_total [(lit "count", VInt 1);
                            (lit "job_post_list", VList [VDict job_described])]
                           (List.length jobs))
           (List.length jobs)
           :: match jobs with
              | [] => [none_found_line]
              | _ :: _ =>
                repeat_char 61%N 80
                  :: List.concat (map (fun lines => lines ++ [[]]) per_job)
              end,
         Ok tt).
Proof.
  destruct (format_job_results repr_any resp_one_job) as [report |] eqn:Hrun;
    [| vm_compute in Hrun; discriminate Hrun].
  assert (Hok : is_failure_report report = false).
  { vm_compute in Hrun. apply Ok_inv in Hrun. subst report. reflexivity. }
  exists report. split; [reflexivity | split; [exact Hok |]].
  destruct (X10_listing_entries repr_any resp_one_job Hrun Hok)
    as (ds & job_posts & jobs & per_job & Hd & _ & _ & Hlen & _ & _ & Hprint).
  vm_compute in Hd. injection Hd as <-.
  exists jobs, per_job. split; [exact Hlen | exact Hprint].
Defined.

Lemma X11_witness :
  no_error_marker resp_bad_city /\
  code_is_zero resp_bad_city /\
  format_job repr_any 2 (VDict job_null_city_name) = Raise TypeError /\
  exists e out,
    format_job_results repr_any resp_bad_city = Raise e /\
    print_job_results repr_any resp_bad_city = (out, Raise e).
Proof.
  assert (Herr : no_error_marker resp_bad_city) by (vm_compute; reflexivity).
  assert (Hcode : code_is_zero resp_bad_city)
    by (exists (VInt 0); vm_compute; split; reflexivity).
  assert (Hbad : format_job repr_any 2 (VDict job_null_city_name) = Raise TypeError)
    by (vm_compute; reflexivity).
  split; [exact Herr | split; [exact Hcode | split; [exact Hbad |]]].
  apply (@X11_one_bad_record_aborts repr_any resp_bad_city
           [(lit "job_post_list",
             VList [VDict job_described; VDict job_null_city_name])]
           [VDict job_described; VDict job_null_city_name]
           1 (VDict job_null_city_name) TypeError Herr Hcode);
    first [exact Hbad | vm_compute; reflexivity].
Defined.

Lemma X12_witness :
  Py.lookup (lit "city_info") job_null_city_name
    = Some (VDict [(lit "name", VNone)]) /\
  _extract_locations repr_any (VDict job_null_city_name) = Ok [VNone] /\
  format_job repr_any 1 (VDict job_null_city_name) = Raise TypeError.
Proof.
  assert (Hcity : Py.lookup (lit "city_info") job_null_city_name
                  = Some (VDict [(lit "name", VNone)]))
    by (vm_compute; reflexivity).
  assert (Hname : Py.lookup (lit "name") [(lit "name", VNone)] = Some VNone)
    by (vm_compute; reflexivity).
  split; [exact Hcity |].
  destruct (@X12_location_name_not_a_string repr_any 1 job_null_city_name
              [(lit "name", VNone)] VNone Hcity Hname)
    as (Hloc & Hformat & _); [discriminate |].
  split; assumption.
Defined.

Lemma X13_witness :
  exists response,
    search_jobs_internal repr_any strict_int strict_str resp_one_job =
      Returns response /\
    success response = true /\
    exists records,
      List.length (jobs response) = List.length records /\
      Forall2 (facade_job_of repr_any) records (jobs response).
Proof.
  destruct (search_jobs_internal repr_any strict_int strict_str resp_one_job)
    as [response |] eqn:Hrun; [| vm_compute in Hrun; discriminate Hrun].
  assert (Hsuccess : success response = true).
  { vm_compute in Hrun. apply Returns_inv in Hrun. subst response. reflexivity. }
  exists response. split; [reflexivity | split; [exact Hsuccess |]].
  destruct (X13_facade_jobs repr_any strict_int strict_str resp_one_job Hrun Hsuccess)
    as ((ds & records & _ & _ & Hlen & Hall) & _).
  exists records. split; assumption.
Defined.

Lemma X14_witness :
  (fun _ _ => VDict resp_busy) (search_keyword (lit "find jobs for python") [])
                               (search_limit []) = VDict resp_busy /\
  Py.truthy (Py.get resp_busy (lit "error")) = false /\
  Py.lookup (lit "data") resp_busy = None /\
  _handle_job_search repr_any (fun _ _ => VDict resp_busy)
                     (lit "find jobs for python") [] (lit "t1") =
    inl (VDict [(lit "type", VStr (lit "job_search_results"));
                (lit "content",
                 VDict [(lit "query",
                         search_keyword (lit "find jobs for python") []);
                        (lit "total_count", VInt 0);
                        (lit "jobs", VList []);
                        (lit "search_timestamp", VStr (lit "t1"))]);
                (lit "format", VStr (lit "application/json"))]).
Proof.
  assert (Herr : Py.truthy (Py.get resp_busy (lit "error")) = false)
    by (vm_compute; reflexivity).
  assert (Hdata : Py.lookup (lit "data") resp_busy = None)
    by (vm_compute; reflexivity).
  split; [reflexivity | split; [exact Herr | split; [exact Hdata |]]].
  destruct (@X14_agent_search_ignores_code repr_any (fun _ _ => VDict resp_busy)
              (lit "find jobs for python") [] resp_busy (lit "t1") eq_refl)
    as [_ Hquiet].
  destruct (Hquiet Herr Hdata) as [Hrun _]. exact Hrun.
Defined.

Lemma X16_witness :
  job_info repr_any 1 (VDict job_no_city) =
    Ok [lit "1. Engineer"; lit "   🆔 Job Code: N/A";
        lit "   📍 Location: N/A"; lit "   💼 Type: N/A";
        lit "   🔗 URL: https://xiaomi.jobs.f.mioffice.cn/index/position//detail"] /\
  exists locations shown_locations,
    _extract_locations repr_any (VDict job_no_city) = Ok locations /\
    ((locations = [] /\ shown_locations = lit "N/A") \/
     (exists names,
        names <> [] /\ locations = map VStr names /\
        shown_locations = join (lit ", ") names)).
Proof.
  assert (Hrun : job_info repr_any 1 (VDict job_no_city) =
    Ok [lit "1. Engineer"; lit "   🆔 Job Code: N/A";
        lit "   📍 Location: N/A"; lit "   💼 Type: N/A";
        lit "   🔗 URL: https://xiaomi.jobs.f.mioffice.cn/index/position//detail"])
    by (vm_compute; reflexivity).
  split; [exact Hrun |].
  destruct (X16_entry_lines repr_any 1 job_no_city Hrun)
    as (locations & shown & optional & Hloc & Hshown & _).
  exists locations, shown. split; assumption.
Defined.

